(** * The todo page: a shallow embedding of [src/app/todo/page.tsx]

    The page component keeps six pieces of React state and reacts to user
    events by calling the hosted document store (Appwrite's [databases]
    client) and then patching its in-memory list.  Each event handler is
    embedded as a function from the state of the render in which it was
    created to the state after it has run, together with the log of the
    requests it sent.  The store is an input of the handlers: whatever it
    answers, fulfilment or rejection, is decided by the environment.

    Three more layers follow the handlers: the events the JSX wires them
    to, the page the component renders with what it lets its user do, and
    the handlers cut at their [await], for what happens while a request is
    on its way. *)

From Stdlib Require Import List NArith Bool String Ascii Lia.
Import ListNotations.

Set Implicit Arguments.

(** ** JavaScript strings *)

Module JsString.

(** A JavaScript string is a sequence of UTF-16 code units.  A code unit
    is a number below 65536; nothing below depends on the bound. *)
Definition code_unit := N.
Definition t := list code_unit.

(** A literal of the source, all of whose characters are ASCII. *)
Definition lit (s : string) : t := map N_of_ascii (list_ascii_of_string s).

(** [a === b] on strings: the same code units in the same order. *)
Fixpoint eqb (a b : t) : bool :=
  match a, b with
  | [], [] => true
  | x :: a', y :: b' => N.eqb x y && eqb a' b'
  | _, _ => false
  end.

(** The code units [String.prototype.trim] strips: ECMAScript's WhiteSpace
    (TAB, VT, FF, ZWNBSP and the space separators) and LineTerminator
    (LF, CR, LS, PS). *)
Definition isWhiteSpace (c : code_unit) : bool :=
  existsb (N.eqb c)
    [9; 10; 11; 12; 13; 32; 160; 5760; 8232; 8233; 8239; 8287; 12288; 65279]%N
  || ((8192 <=? c) && (c <=? 8202))%N.

Fixpoint trimStart (s : t) : t :=
  match s with
  | [] => []
  | c :: rest => if isWhiteSpace c then trimStart rest else s
  end.

Definition trimEnd (s : t) : t := rev (trimStart (rev s)).

Definition trim (s : t) : t := trimEnd (trimStart s).

End JsString.

Definition jsstring : Type := JsString.t.

Definition js (s : string) : jsstring := JsString.lit s.
Arguments js s%_string.

(** ** The document store

    The subset of Appwrite's [Databases] client the page uses, and the
    [Todo] document of [src/types/todo.ts]. *)

Module Appwrite.

(** [Todo extends Models.Document]: the three fields of the interface and
    the bookkeeping fields every document of the store carries ([$id],
    [$collectionId], [$databaseId], [$createdAt], [$updatedAt],
    [$permissions]). *)
Record Todo : Type := mkTodo {
  doc_id : jsstring;            (* $id *)
  doc_collectionId : jsstring;  (* $collectionId *)
  doc_databaseId : jsstring;    (* $databaseId *)
  doc_createdAt : jsstring;     (* $createdAt *)
  doc_updatedAt : jsstring;     (* $updatedAt *)
  doc_permissions : list jsstring; (* $permissions *)
  todo : jsstring;
  userId : jsstring;
  completed : bool
}.

(** [Models.DocumentList<Todo>], the answer of [listDocuments]. *)
Record DocumentList : Type := mkDocumentList {
  total : N;
  documents : list Todo
}.

(** The data object handed to [createDocument] and [updateDocument]: the
    keys that are present, with their values. *)
Record Data : Type := mkData {
  data_todo : option jsstring;
  data_userId : option jsstring;
  data_completed : option bool
}.

(** A request, indexed by the type of the value its promise resolves to.
    [queries] is the optional last argument of [listDocuments], which
    filters, orders and pages the answer; [None] when it is left out. *)
Inductive Request : Type -> Type :=
| listDocuments (databaseId collectionId : jsstring)
                (queries : option (list jsstring)) : Request DocumentList
| createDocument (databaseId collectionId documentId : jsstring)
                 (data : Data) : Request Todo
| updateDocument (databaseId collectionId documentId : jsstring)
                 (data : Data) : Request Todo
| deleteDocument (databaseId collectionId documentId : jsstring)
                 : Request unit.

(** What [await] gives back: the resolved value, or the exception thrown
    into the [catch] block. *)
Inductive Outcome (A : Type) : Type :=
| Fulfilled (response : A)
| Rejected (err : jsstring).
Arguments Rejected {A} err.

(** The store, seen from the page: an answer to every request. *)
Definition Databases : Type := forall A : Type, Request A -> Outcome A.

(** A request as it appears in the log of what was sent. *)
Inductive Call : Type :=
| call (A : Type) (request : Request A).

Definition rejected (databases : Databases) (c : Call) : bool :=
  match c with
  | call request =>
      match databases _ request with
      | Fulfilled _ => false
      | Rejected _ => true
      end
  end.

Definition fulfilled (databases : Databases) (c : Call) : bool :=
  negb (rejected databases c).

End Appwrite.
Import Appwrite.

(** ** The page component *)

Module TodoPage.

(** The six [useState] cells of [TodoPage]. *)
Record State : Type := mkState {
  todoText : jsstring;
  editingId : option jsstring;
  editText : jsstring;
  todos : list Todo;
  loading : bool;
  error : option jsstring
}.

(** The initial values given to [useState]. *)
Definition initialState : State :=
  {| todoText := js ""; editingId := None; editText := js "";
     todos := []; loading := false; error := None |}.

Definition setTodoText (v : jsstring) (s : State) : State :=
  {| todoText := v; editingId := editingId s; editText := editText s;
     todos := todos s; loading := loading s; error := error s |}.

Definition setEditingId (v : option jsstring) (s : State) : State :=
  {| todoText := todoText s; editingId := v; editText := editText s;
     todos := todos s; loading := loading s; error := error s |}.

Definition setEditText (v : jsstring) (s : State) : State :=
  {| todoText := todoText s; editingId := editingId s; editText := v;
     todos := todos s; loading := loading s; error := error s |}.

(** [setTodos] with an updater, applied to the list current at the time. *)
Definition setTodos (f : list Todo -> list Todo) (s : State) : State :=
  {| todoText := todoText s; editingId := editingId s; editText := editText s;
     todos := f (todos s); loading := loading s; error := error s |}.

Definition setLoading (v : bool) (s : State) : State :=
  {| todoText := todoText s; editingId := editingId s; editText := editText s;
     todos := todos s; loading := v; error := error s |}.

Definition setError (v : option jsstring) (s : State) : State :=
  {| todoText := todoText s; editingId := editingId s; editText := editText s;
     todos := todos s; loading := loading s; error := v |}.

(** [{ ...todo, completed: v }] and [{ ...todo, todo: v }]. *)
Definition with_completed (v : bool) (t : Todo) : Todo :=
  {| doc_id := doc_id t; doc_collectionId := doc_collectionId t;
     doc_databaseId := doc_databaseId t; doc_createdAt := doc_createdAt t;
     doc_updatedAt := doc_updatedAt t; doc_permissions := doc_permissions t;
     todo := todo t; userId := userId t; completed := v |}.

Definition with_todo (v : jsstring) (t : Todo) : Todo :=
  {| doc_id := doc_id t; doc_collectionId := doc_collectionId t;
     doc_databaseId := doc_databaseId t; doc_createdAt := doc_createdAt t;
     doc_updatedAt := doc_updatedAt t; doc_permissions := doc_permissions t;
     todo := v; userId := userId t; completed := completed t |}.

Definition DATABASE_ID : jsstring := js "todos".
Definition COLLECTION_ID : jsstring := js "todosdata".

(** What a handler gets from outside the component: the store and the
    identifier [ID.unique()] hands out. *)
Record Env : Type := mkEnv {
  databases : Databases;
  ID_unique : jsstring
}.

(** A handler runs on the state of its render and yields the state once it
    has finished, with the requests it sent in order.  Values a handler
    reads from its closure ([todos], [todoText], [editText]) come from the
    state it started on.  [try]/[catch] is the match on the store's
    answer, [finally] the [setLoading false] after it; what goes to the
    console is left out. *)
Definition Handler : Type := Env -> State -> State * list Call.

(** [(todo) => todo.$id === id] *)
Definition has_id (id : jsstring) (t : Todo) : bool :=
  JsString.eqb (doc_id t) id.

(** The effect run on mount. *)
Definition fetchTodos : Handler := fun env s0 =>
  let s := setLoading true s0 in
  let s := setError None s in
  let request := listDocuments DATABASE_ID COLLECTION_ID None in
  let s :=
    match databases env request with
    | Fulfilled response => setTodos (fun _ => documents response) s
    | Rejected _ => setError (Some (js "Failed to fetch todos")) s
    end in
  (setLoading false s, [call request]).

Definition handleSubmit : Handler := fun env s0 =>
  if JsString.eqb (JsString.trim (todoText s0)) (js "") then (s0, [])
  else
    let s := setLoading true s0 in
    let s := setError None s in
    let request :=
      createDocument DATABASE_ID COLLECTION_ID (ID_unique env)
        {| data_todo := Some (JsString.trim (todoText s0));
           data_userId := Some (js "1");
           data_completed := Some false |} in
    let s :=
      match databases env request with
      | Fulfilled response =>
          let s := setTodos (fun prevTodos => prevTodos ++ [response]) s in
          setTodoText (js "") s
      | Rejected _ => setError (Some (js "Failed to create todo")) s
      end in
    (setLoading false s, [call request]).

Definition handleInputChange (value : jsstring) : Handler := fun _ s0 =>
  (setTodoText value s0, []).

Definition toggleTodo (id : jsstring) : Handler := fun env s0 =>
  match find (has_id id) (todos s0) with
  | None => (s0, [])
  | Some todoToUpdate =>
      let s := setLoading true s0 in
      let s := setError None s in
      let request :=
        updateDocument DATABASE_ID COLLECTION_ID id
          {| data_todo := None; data_userId := None;
             data_completed := Some (negb (completed todoToUpdate)) |} in
      let s :=
        match databases env request with
        | Fulfilled _ =>
            setTodos (fun prevTodos =>
              map (fun todo =>
                     if has_id id todo
                     then with_completed (negb (completed todo)) todo
                     else todo) prevTodos) s
        | Rejected _ => setError (Some (js "Failed to update todo")) s
        end in
      (setLoading false s, [call request])
  end.

Definition deleteTodo (id : jsstring) : Handler := fun env s0 =>
  let s := setLoading true s0 in
  let s := setError None s in
  let request := deleteDocument DATABASE_ID COLLECTION_ID id in
  let s :=
    match databases env request with
    | Fulfilled _ =>
        setTodos (fun prevTodos =>
          filter (fun todo => negb (has_id id todo)) prevTodos) s
    | Rejected _ => setError (Some (js "Failed to delete todo")) s
    end in
  (setLoading false s, [call request]).

Definition updateToDo (id : jsstring) : Handler := fun _ s0 =>
  match find (has_id id) (todos s0) with
  | Some todoToEdit =>
      let s := setEditingId (Some id) s0 in
      (setEditText (todo todoToEdit) s, [])
  | None => (s0, [])
  end.

Definition handleUpdateText (value : jsstring) : Handler := fun _ s0 =>
  (setEditText value s0, []).

Definition saveUpdate (id : jsstring) : Handler := fun env s0 =>
  if JsString.eqb (JsString.trim (editText s0)) (js "") then (s0, [])
  else
    let s := setLoading true s0 in
    let s := setError None s in
    let request :=
      updateDocument DATABASE_ID COLLECTION_ID id
        {| data_todo := Some (JsString.trim (editText s0));
           data_userId := None; data_completed := None |} in
    let s :=
      match databases env request with
      | Fulfilled _ =>
          let s :=
            setTodos (fun prevTodos =>
              map (fun todo =>
                     if has_id id todo
                     then with_todo (JsString.trim (editText s0)) todo
                     else todo) prevTodos) s in
          let s := setEditingId None s in
          setEditText (js "") s
      | Rejected _ => setError (Some (js "Failed to update todo text")) s
      end in
    (setLoading false s, [call request]).

Definition cancelUpdate : Handler := fun _ s0 =>
  let s := setEditingId None s0 in
  (setEditText (js "") s, []).

(** One handler after another, the second on the state the first left. *)
Definition andThen (first second : Handler) : Handler := fun env s0 =>
  let '(s1, sent1) := first env s0 in
  let '(s2, sent2) := second env s1 in
  (s2, sent1 ++ sent2).

(** The five operations that talk to the store. *)
Inductive Operation : Type :=
| ListLoad
| Create
| Toggle (id : jsstring)
| EditSave (id : jsstring)
| Delete (id : jsstring).

Definition run (op : Operation) : Handler :=
  match op with
  | ListLoad => fetchTodos
  | Create => handleSubmit
  | Toggle id => toggleTodo id
  | EditSave id => saveUpdate id
  | Delete id => deleteTodo id
  end.

(** The string each operation's [catch] block hands to [setError]. *)
Definition failureMessage (op : Operation) : jsstring :=
  match op with
  | ListLoad => js "Failed to fetch todos"
  | Create => js "Failed to create todo"
  | Toggle _ => js "Failed to update todo"
  | EditSave _ => js "Failed to update todo text"
  | Delete _ => js "Failed to delete todo"
  end.

(** Two operations of the same kind, whatever their argument. *)
Definition same_kind (a b : Operation) : bool :=
  match a, b with
  | ListLoad, ListLoad | Create, Create | Toggle _, Toggle _
  | EditSave _, EditSave _ | Delete _, Delete _ => true
  | _, _ => false
  end.

End TodoPage.
Import TodoPage.

(** ** What the operations are meant to do to the list *)

Module ListSpec.

(** [Removed id before after]: [after] is [before] without the entries
    whose [$id] is [id]; every other entry is kept as it is, in place. *)
Inductive Removed (id : jsstring) : list Todo -> list Todo -> Prop :=
| Removed_nil : Removed id [] []
| Removed_drop t before after :
    doc_id t = id -> Removed id before after ->
    Removed id (t :: before) after
| Removed_keep t before after :
    doc_id t <> id -> Removed id before after ->
    Removed id (t :: before) (t :: after).

(** Every field of [new] but the text is that of [old]. *)
Definition same_but_text (old new : Todo) : Prop :=
  doc_id new = doc_id old
  /\ doc_collectionId new = doc_collectionId old
  /\ doc_databaseId new = doc_databaseId old
  /\ doc_createdAt new = doc_createdAt old
  /\ doc_updatedAt new = doc_updatedAt old
  /\ doc_permissions new = doc_permissions old
  /\ userId new = userId old
  /\ completed new = completed old.

(** [Retexted id text old new]: an entry named [id] got [text] and kept
    the rest; any other entry is untouched. *)
Definition Retexted (id text : jsstring) (old new : Todo) : Prop :=
  (doc_id old = id -> todo new = text /\ same_but_text old new)
  /\ (doc_id old <> id -> new = old).

(** The function [toggleTodo] maps over the list, under a name. *)
Definition flip_completed (id : jsstring) (todo : Todo) : Todo :=
  if has_id id todo
  then with_completed (negb (completed todo)) todo
  else todo.

End ListSpec.
Import ListSpec.

(** ** How the page wires its handlers to the screen *)

Module Wiring.

(** What can happen to the page: the mount effect and the DOM events the
    JSX attaches a handler to.  The id is the [todo.$id] of the row the
    control sits in, the value is [e.target.value], the key is [e.key]. *)
Inductive Event : Type :=
| Mount                                  (* useEffect(..., []) *)
| FormSubmit                             (* onSubmit={handleSubmit} *)
| InputChange (value : jsstring)         (* onChange={handleInputChange} *)
| CheckboxChange (id : jsstring)         (* () => toggleTodo(todo.$id) *)
| EditChange (value : jsstring)          (* onChange={handleUpdateText} *)
| EditKeyDown (id key : jsstring)        (* onKeyDown of the edit box *)
| SaveClick (id : jsstring)              (* () => saveUpdate(todo.$id) *)
| CancelClick                            (* onClick={cancelUpdate} *)
| DeleteClick (id : jsstring)            (* () => deleteTodo(todo.$id) *)
| UpdateClick (id : jsstring).           (* () => updateToDo(todo.$id) *)

Definition skip : Handler := fun _ s0 => (s0, []).

(** The two [if]s of the edit box's [onKeyDown], one after the other. *)
Definition onKeyDown (id key : jsstring) : Handler :=
  andThen
    (if JsString.eqb key (js "Enter") then saveUpdate id else skip)
    (if JsString.eqb key (js "Escape") then cancelUpdate else skip).

Definition dispatch (e : Event) : Handler :=
  match e with
  | Mount => fetchTodos
  | FormSubmit => handleSubmit
  | InputChange value => handleInputChange value
  | CheckboxChange id => toggleTodo id
  | EditChange value => handleUpdateText value
  | EditKeyDown id key => onKeyDown id key
  | SaveClick id => saveUpdate id
  | CancelClick => cancelUpdate
  | DeleteClick id => deleteTodo id
  | UpdateClick id => updateToDo id
  end.

(** A run of events, each one finished before the next; the store may
    answer differently every time. *)
Fixpoint play (script : list (Env * Event)) (s0 : State) : State * list Call :=
  match script with
  | [] => (s0, [])
  | (env, e) :: rest =>
      let '(s1, sent1) := dispatch e env s0 in
      let '(s2, sent2) := play rest s1 in
      (s2, sent1 ++ sent2)
  end.

End Wiring.
Import Wiring.

(** ** What the page renders *)

Module View.

Record Button : Type := mkButton {
  label : jsstring;
  button_disabled : bool;
  onClick : Event
}.

Record Checkbox : Type := mkCheckbox {
  checked : bool;
  checkbox_disabled : bool;
  checkbox_onChange : Event
}.

Record TextInput : Type := mkTextInput {
  value : jsstring;
  input_disabled : bool;
  maxLength : option nat;
  onChange : jsstring -> Event;
  input_onKeyDown : option (jsstring -> Event)
}.

(** The middle of a row: the edit box with its two buttons, or the text. *)
Inductive RowBody : Type :=
| EditBox (input : TextInput) (save cancel : Button)
| Label (text : jsstring) (lineThrough : bool).

Record Row : Type := mkRow {
  key : jsstring;
  checkbox : Checkbox;
  body : RowBody;
  deleteButton : Button;
  updateButton : Button
}.

Inductive ListArea : Type :=
| EmptyNote (text : jsstring)
| Listing (heading : nat) (rows : list Row).

Record Page : Type := mkPage {
  loadingBanner : bool;
  errorBanner : option jsstring;
  form_onSubmit : Event;
  form_input : TextInput;
  form_submit : Button;
  listArea : ListArea
}.

(** [editingId === todo.$id], [editingId] being a string or [null]. *)
Definition isEditing (editingId : option jsstring) (todo : Todo) : bool :=
  match editingId with
  | Some id => JsString.eqb id (doc_id todo)
  | None => false
  end.

(** One [<li>] of [todos.map]. *)
Definition renderRow (s : State) (todo : Todo) : Row :=
  {| key := doc_id todo;
     checkbox :=
       {| checked := completed todo;
          checkbox_disabled := loading s;
          checkbox_onChange := CheckboxChange (doc_id todo) |};
     body :=
       if isEditing (editingId s) todo
       then EditBox
              {| value := editText s;
                 input_disabled := false;
                 maxLength := None;
                 onChange := EditChange;
                 input_onKeyDown := Some (EditKeyDown (doc_id todo)) |}
              {| label := js "Save"; button_disabled := false;
                 onClick := SaveClick (doc_id todo) |}
              {| label := js "Cancel"; button_disabled := false;
                 onClick := CancelClick |}
       else Label (Appwrite.todo todo) (completed todo);
     deleteButton :=
       {| label := js "Delete"; button_disabled := loading s;
          onClick := DeleteClick (doc_id todo) |};
     updateButton :=
       {| label := js "Update"; button_disabled := loading s;
          onClick := UpdateClick (doc_id todo) |} |}.

(** [error && ...]: nothing is shown for [null] and for the empty string. *)
Definition truthy (error : option jsstring) : option jsstring :=
  match error with
  | Some [] => None
  | Some message => Some message
  | None => None
  end.

(** The JSX the component returns, without its styling. *)
Definition render (s : State) : Page :=
  {| loadingBanner := loading s;
     errorBanner := truthy (error s);
     form_onSubmit := FormSubmit;
     form_input :=
       {| value := todoText s;
          input_disabled := loading s;
          maxLength := Some 100;
          onChange := InputChange;
          input_onKeyDown := None |};
     form_submit :=
       {| label := if loading s then js "Adding..." else js "Add";
          button_disabled := loading s;
          onClick := FormSubmit |};
     listArea :=
       if Nat.eqb (List.length (todos s)) 0
       then EmptyNote (if loading s then js "Loading todos..."
                       else js "No todos yet. Add one above!")
       else Listing (List.length (todos s)) (map (renderRow s) (todos s)) |}.

Definition rowsOf (page : Page) : list Row :=
  match listArea page with
  | EmptyNote _ => []
  | Listing _ rows => rows
  end.

(** A text fits a [maxLength] counted in code units. *)
Definition fits (maxLength : option nat) (text : jsstring) : Prop :=
  match maxLength with
  | Some n => List.length text <= n
  | None => True
  end.

(** What a user can make a text input fire: a change to a text that fits,
    or a key press when the input listens to keys; nothing once disabled. *)
Inductive InputFires (input : TextInput) : Event -> Prop :=
| fires_change text :
    input_disabled input = false -> fits (maxLength input) text ->
    InputFires input (onChange input text)
| fires_key handler pressed :
    input_disabled input = false -> input_onKeyDown input = Some handler ->
    InputFires input (handler pressed).

(** The events a rendered page offers to its user: those of its controls
    that are not disabled.  A form is submitted through its submit button
    or from its text input. *)
Inductive Offers (page : Page) : Event -> Prop :=
| offers_submit_button :
    button_disabled (form_submit page) = false ->
    Offers page (form_onSubmit page)
| offers_submit_input :
    input_disabled (form_input page) = false ->
    Offers page (form_onSubmit page)
| offers_form_input e :
    InputFires (form_input page) e -> Offers page e
| offers_checkbox row :
    In row (rowsOf page) -> checkbox_disabled (checkbox row) = false ->
    Offers page (checkbox_onChange (checkbox row))
| offers_edit_input row input save cancel e :
    In row (rowsOf page) -> body row = EditBox input save cancel ->
    InputFires input e -> Offers page e
| offers_save row input save cancel :
    In row (rowsOf page) -> body row = EditBox input save cancel ->
    button_disabled save = false -> Offers page (onClick save)
| offers_cancel row input save cancel :
    In row (rowsOf page) -> body row = EditBox input save cancel ->
    button_disabled cancel = false -> Offers page (onClick cancel)
| offers_delete row :
    In row (rowsOf page) -> button_disabled (deleteButton row) = false ->
    Offers page (onClick (deleteButton row))
| offers_update row :
    In row (rowsOf page) -> button_disabled (updateButton row) = false ->
    Offers page (onClick (updateButton row)).

(** The states the page goes through when its user acts on what is shown
    and every operation finishes before the next action. *)
Inductive Reachable : State -> Prop :=
| reach_mount env :
    Reachable (fst (dispatch Mount env initialState))
| reach_event env e s :
    Reachable s -> Offers (render s) e ->
    Reachable (fst (dispatch e env s)).

End View.
Import View.

(** ** The handlers, cut at their [await] *)

Module Async.

(** An [async] handler either returns before it awaits anything, or sends a
    request and leaves a continuation.  The continuation runs when the
    promise settles, on the state current by then: its updaters read that
    state, while what it took from its closure dates from the call. *)
Inductive Step : Type :=
| Done (s : State)
| Await (A : Type) (pending : State) (request : Request A)
        (resume : Outcome A -> State -> State).

Definition fetchTodos_async (s0 : State) : Step :=
  let s := setLoading true s0 in
  let s := setError None s in
  Await s (listDocuments DATABASE_ID COLLECTION_ID None)
    (fun outcome current =>
       let s :=
         match outcome with
         | Fulfilled response => setTodos (fun _ => documents response) current
         | Rejected _ => setError (Some (js "Failed to fetch todos")) current
         end in
       setLoading false s).

Definition handleSubmit_async (unique : jsstring) (s0 : State) : Step :=
  if JsString.eqb (JsString.trim (todoText s0)) (js "") then Done s0
  else
    let s := setLoading true s0 in
    let s := setError None s in
    Await s
      (createDocument DATABASE_ID COLLECTION_ID unique
         {| data_todo := Some (JsString.trim (todoText s0));
            data_userId := Some (js "1");
            data_completed := Some false |})
      (fun outcome current =>
         let s :=
           match outcome with
           | Fulfilled response =>
               let s :=
                 setTodos (fun prevTodos => prevTodos ++ [response]) current in
               setTodoText (js "") s
           | Rejected _ => setError (Some (js "Failed to create todo")) current
           end in
         setLoading false s).

Definition toggleTodo_async (id : jsstring) (s0 : State) : Step :=
  match find (has_id id) (todos s0) with
  | None => Done s0
  | Some todoToUpdate =>
      let s := setLoading true s0 in
      let s := setError None s in
      Await s
        (updateDocument DATABASE_ID COLLECTION_ID id
           {| data_todo := None; data_userId := None;
              data_completed := Some (negb (completed todoToUpdate)) |})
        (fun outcome current =>
           let s :=
             match outcome with
             | Fulfilled _ =>
                 setTodos (fun prevTodos =>
                   map (fun todo =>
                          if has_id id todo
                          then with_completed (negb (completed todo)) todo
                          else todo) prevTodos) current
             | Rejected _ =>
                 setError (Some (js "Failed to update todo")) current
             end in
           setLoading false s)
  end.

Definition deleteTodo_async (id : jsstring) (s0 : State) : Step :=
  let s := setLoading true s0 in
  let s := setError None s in
  Await s (deleteDocument DATABASE_ID COLLECTION_ID id)
    (fun outcome current =>
       let s :=
         match outcome with
         | Fulfilled _ =>
             setTodos (fun prevTodos =>
               filter (fun todo => negb (has_id id todo)) prevTodos) current
         | Rejected _ => setError (Some (js "Failed to delete todo")) current
         end in
       setLoading false s).

Definition saveUpdate_async (id : jsstring) (s0 : State) : Step :=
  if JsString.eqb (JsString.trim (editText s0)) (js "") then Done s0
  else
    let s := setLoading true s0 in
    let s := setError None s in
    Await s
      (updateDocument DATABASE_ID COLLECTION_ID id
         {| data_todo := Some (JsString.trim (editText s0));
            data_userId := None; data_completed := None |})
      (fun outcome current =>
         let s :=
           match outcome with
           | Fulfilled _ =>
               let s :=
                 setTodos (fun prevTodos =>
                   map (fun todo =>
                          if has_id id todo
                          then with_todo (JsString.trim (editText s0)) todo
                          else todo) prevTodos) current in
               let s := setEditingId None s in
               setEditText (js "") s
           | Rejected _ =>
               setError (Some (js "Failed to update todo text")) current
           end in
         setLoading false s).

(** The operations of the page, started. *)
Definition start (op : Operation) (unique : jsstring) (s0 : State) : Step :=
  match op with
  | ListLoad => fetchTodos_async s0
  | Create => handleSubmit_async unique s0
  | Toggle id => toggleTodo_async id s0
  | EditSave id => saveUpdate_async id s0
  | Delete id => deleteTodo_async id s0
  end.

(** A started handler, brought to its end: the store answers, and
    [meanwhile] is what happened to the state while it was awaited. *)
Definition settle (databases : Databases) (meanwhile : State -> State)
                  (step : Step) : State * list Call :=
  match step with
  | Done s => (s, [])
  | Await pending request resume =>
      (resume (databases _ request) (meanwhile pending), [call request])
  end.

End Async.
Import Async.

(** ** What the screen allows, in terms of the state *)

Module PageSpec.

(** [Listed s id]: some todo of the list carries [id]. *)
Definition Listed (s : State) (id : jsstring) : Prop :=
  exists t, In t (todos s) /\ doc_id t = id.

(** [Wired s e]: the condition on the state under which the page lets its
    user fire [e]. *)
Definition Wired (s : State) (e : Event) : Prop :=
  match e with
  | Mount => False
  | FormSubmit => loading s = false
  | InputChange value => loading s = false /\ List.length value <= 100
  | CheckboxChange id | DeleteClick id | UpdateClick id =>
      loading s = false /\ Listed s id
  | EditChange _ | CancelClick =>
      exists id, editingId s = Some id /\ Listed s id
  | EditKeyDown id _ | SaveClick id =>
      editingId s = Some id /\ Listed s id
  end.


(** The events whose handler may call the store. *)
Definition mayAsk (e : Event) : bool :=
  match e with
  | Mount | FormSubmit | CheckboxChange _ | EditKeyDown _ _
  | SaveClick _ | DeleteClick _ => true
  | InputChange _ | EditChange _ | CancelClick | UpdateClick _ => false
  end.


(** What holds of the page whenever no operation is running. *)
Definition Quiet (s : State) : Prop :=
  loading s = false
  /\ (error s = None \/ exists op, error s = Some (failureMessage op))
  /\ List.length (todoText s) <= 100
  /\ (editingId s = None -> editText s = js "").


End PageSpec.
Import PageSpec.

(** ** What a trimmed text is *)

Module TextSpec.

(** [TrimOf text x]: [x] is [text] without the white space around it:
    [text] is [x] between two runs of white space, and [x] neither starts
    nor ends with white space. *)
Definition TrimOf (text x : jsstring) : Prop :=
  (exists pre post,
      text = pre ++ x ++ post
      /\ forallb JsString.isWhiteSpace pre = true
      /\ forallb JsString.isWhiteSpace post = true)
  /\ (forall c rest, x = c :: rest -> JsString.isWhiteSpace c = false)
  /\ (forall c front, x = front ++ [c] -> JsString.isWhiteSpace c = false).

(** The ids of a list of todos, in order. *)
Definition ids (l : list Todo) : list jsstring := map doc_id l.

End TextSpec.
Import TextSpec.

(** ** Sample data *)

Module Samples.

Definition milk : Todo :=
  {| doc_id := js "a1"; doc_collectionId := js "todosdata";
     doc_databaseId := js "todos"; doc_createdAt := js "2025-01-01";
     doc_updatedAt := js "2025-01-02"; doc_permissions := [];
     todo := js "Buy milk"; userId := js "1"; completed := true |}.

Definition bread : Todo :=
  {| doc_id := js "b2"; doc_collectionId := js "todosdata";
     doc_databaseId := js "todos"; doc_createdAt := js "2025-01-03";
     doc_updatedAt := js "2025-01-03"; doc_permissions := [];
     todo := js "Bread"; userId := js "1"; completed := false |}.

Definition orElse {A} (o : option A) (d : A) : A :=
  match o with Some a => a | None => d end.

(** A store that accepts everything. *)
Definition store_up : Databases := fun A request =>
  match request in Request A return Outcome A with
  | listDocuments _ _ _ =>
      Fulfilled {| total := 2; documents := [milk; bread] |}
  | createDocument db coll id data =>
      Fulfilled
        {| doc_id := id; doc_collectionId := coll; doc_databaseId := db;
           doc_createdAt := js "2025-02-01";
           doc_updatedAt := js "2025-02-01"; doc_permissions := [];
           todo := orElse (data_todo data) (js "");
           userId := orElse (data_userId data) (js "");
           completed := orElse (data_completed data) false |}
  | updateDocument _ _ _ _ => Fulfilled milk
  | deleteDocument _ _ _ => Fulfilled tt
  end.

(** A store that cannot be reached. *)
Definition store_down : Databases := fun A _ =>
  Rejected (js "Network request failed").

Definition online : Env := {| databases := store_up; ID_unique := js "c3" |}.
Definition offline : Env :=
  {| databases := store_down; ID_unique := js "c3" |}.

(** A page showing two todos, the first one being edited. *)
Definition busy : State :=
  {| todoText := js "  Eggs "; editingId := Some (js "a1");
     editText := js " Buy oat milk  "; todos := [milk; bread];
     loading := false; error := None |}.

(** A space, a tab, a line feed, a no-break space, an ideographic space. *)
Definition blank : jsstring := [32; 9; 10; 160; 12288]%N.

End Samples.

(** ** More sample data *)

Module Scenes.

(** The document [Samples.store_up] answers when the page of
    [Samples.busy] submits its form. *)
Definition eggs : Todo :=
  {| doc_id := js "c3"; doc_collectionId := js "todosdata";
     doc_databaseId := js "todos"; doc_createdAt := js "2025-02-01";
     doc_updatedAt := js "2025-02-01"; doc_permissions := [];
     todo := js "Eggs"; userId := js "1"; completed := false |}.


(** The page of [Samples.busy] after its edited todo was deleted. *)
Definition orphaned : State :=
  {| todoText := js ""; editingId := Some (js "a1");
     editText := js "Buy oat milk"; todos := [Samples.bread];
     loading := false; error := None |}.

End Scenes.

(** ** Facts about strings *)

Lemma jsstring_eqb_eq (a b : jsstring) : JsString.eqb a b = true <-> a = b.
Proof.
  revert b; induction a as [|x a IH]; intros [|y b]; simpl;
    try (split; [discriminate | discriminate]); try tauto.
  rewrite andb_true_iff, N.eqb_eq, IH.
  split; [intros [-> ->]; reflexivity | intros E; inversion E; auto].
Qed.

Lemma jsstring_eqb_refl (a : jsstring) : JsString.eqb a a = true.
Proof. apply jsstring_eqb_eq; reflexivity. Qed.

Lemma jsstring_eqb_neq (a b : jsstring) : JsString.eqb a b = false <-> a <> b.
Proof.
  rewrite <- jsstring_eqb_eq. destruct (JsString.eqb a b); split; congruence.
Qed.

Lemma trimStart_nil_iff (s : jsstring) :
  JsString.trimStart s = [] <-> forallb JsString.isWhiteSpace s = true.
Proof.
  induction s as [|c s IH]; simpl; [tauto|].
  destruct (JsString.isWhiteSpace c); simpl; [exact IH|].
  split; discriminate.
Qed.

Lemma trimStart_head (s : jsstring) :
  match JsString.trimStart s with
  | [] => True
  | c :: _ => JsString.isWhiteSpace c = false
  end.
Proof.
  induction s as [|c s IH]; simpl; [exact I|].
  destruct (JsString.isWhiteSpace c) eqn:E; [exact IH | exact E].
Qed.

Lemma forallb_rev {A} (p : A -> bool) (l : list A) :
  forallb p (rev l) = forallb p l.
Proof.
  induction l as [|x l IH]; simpl; [reflexivity|].
  rewrite forallb_app, IH; simpl. rewrite andb_true_r. apply andb_comm.
Qed.

(** A string trims to the empty string exactly when it is empty or made of
    white space only. *)
Lemma trim_nil_iff (s : jsstring) :
  JsString.trim s = [] <-> forallb JsString.isWhiteSpace s = true.
Proof.
  unfold JsString.trim, JsString.trimEnd. split.
  - intros H. apply trimStart_nil_iff.
    assert (H1 : JsString.trimStart (rev (JsString.trimStart s)) = []).
    { apply (f_equal (@rev _)) in H. rewrite rev_involutive in H. exact H. }
    apply trimStart_nil_iff in H1. rewrite forallb_rev in H1.
    pose proof (trimStart_head s) as Hh.
    destruct (JsString.trimStart s) as [|c r]; [reflexivity|].
    simpl in H1. rewrite Hh in H1. discriminate.
  - intros H. apply trimStart_nil_iff in H. rewrite H. reflexivity.
Qed.

Lemma trim_empty_test (s : jsstring) :
  JsString.eqb (JsString.trim s) (js "") = true
  <-> forallb JsString.isWhiteSpace s = true.
Proof. rewrite jsstring_eqb_eq. apply trim_nil_iff. Qed.

Lemma trim_nonempty_test (s : jsstring) :
  JsString.trim s <> [] ->
  JsString.eqb (JsString.trim s) (js "") = false.
Proof. intros H. apply jsstring_eqb_neq. exact H. Qed.

(** ** Facts about the handlers *)

Lemma rejected_call {A} (databases : Databases) (request : Request A) :
  rejected databases (call request) = true ->
  exists err, databases A request = Rejected err.
Proof.
  simpl. destruct (databases A request) as [v|err]; [discriminate|].
  intros _. exists err. reflexivity.
Qed.

Lemma fulfilled_call {A} (databases : Databases) (request : Request A) :
  fulfilled databases (call request) = true ->
  exists response, databases A request = Fulfilled response.
Proof.
  unfold fulfilled; simpl. destruct (databases A request) as [v|err];
    [|discriminate].
  intros _. exists v. reflexivity.
Qed.

Ltac store_answer :=
  match goal with
  | H : forallb (rejected _) [call ?r] = true |- _ =>
      simpl forallb in H; rewrite andb_true_r in H;
      apply rejected_call in H; destruct H as [? H]
  | H : forallb (fulfilled _) [call ?r] = true |- _ =>
      simpl forallb in H; rewrite andb_true_r in H;
      apply fulfilled_call in H; destruct H as [? H]
  end.

(** ** The claims *)

(** C1. Whatever the operation (list load, create, toggle, edit-save,
    delete) and whatever the state it starts on, if the request it sent was
    rejected then the list of todos is the one it started with, and the
    state differs from the starting one in two cells only: the error is the
    operation's own message and the loading flag is off.  Operations of
    different kinds have different messages. *)
Theorem C1_failure_leaves_state
  (op : Operation) (env : Env) (s s' : State) (sent : list Call) :
  run op env s = (s', sent) ->
  sent <> [] ->
  forallb (rejected (databases env)) sent = true ->
  todos s' = todos s
  /\ s' = {| todoText := todoText s; editingId := editingId s;
             editText := editText s; todos := todos s;
             loading := false; error := Some (failureMessage op) |}
  /\ (forall op', failureMessage op' = failureMessage op ->
                  same_kind op' op = true).
Proof.
  intros Hrun Hsent Hrej.
  assert (Hmsg : forall op', failureMessage op' = failureMessage op ->
                             same_kind op' op = true).
  { intros op'. destruct op, op'; simpl; intros E;
      try reflexivity; vm_compute in E; discriminate E. }
  cut (s' = {| todoText := todoText s; editingId := editingId s;
               editText := editText s; todos := todos s;
               loading := false; error := Some (failureMessage op) |}).
  { intros ->. auto. }
  clear Hmsg.
  destruct op as [| |id|id|id]; simpl in Hrun.
  - unfold fetchTodos in Hrun. injection Hrun as Hs <-.
    store_answer. rewrite Hrej in Hs. subst s'. reflexivity.
  - unfold handleSubmit in Hrun.
    destruct (JsString.eqb _ _).
    + injection Hrun as _ <-. contradiction Hsent; reflexivity.
    + injection Hrun as Hs <-.
      store_answer. rewrite Hrej in Hs. subst s'. reflexivity.
  - unfold toggleTodo in Hrun.
    destruct (find _ _) as [t|].
    + injection Hrun as Hs <-.
      store_answer. rewrite Hrej in Hs. subst s'. reflexivity.
    + injection Hrun as _ <-. contradiction Hsent; reflexivity.
  - unfold saveUpdate in Hrun.
    destruct (JsString.eqb _ _).
    + injection Hrun as _ <-. contradiction Hsent; reflexivity.
    + injection Hrun as Hs <-.
      store_answer. rewrite Hrej in Hs. subst s'. reflexivity.
  - unfold deleteTodo in Hrun. injection Hrun as Hs <-.
    store_answer. rewrite Hrej in Hs. subst s'. reflexivity.
Qed.

Lemma C1_failure_leaves_state_witness :
  run Create Samples.offline Samples.busy
  = ({| todoText := js "  Eggs "; editingId := Some (js "a1");
        editText := js " Buy oat milk  ";
        todos := [Samples.milk; Samples.bread];
        loading := false; error := Some (js "Failed to create todo") |},
     [call (createDocument (js "todos") (js "todosdata") (js "c3")
              {| data_todo := Some (js "Eggs"); data_userId := Some (js "1");
                 data_completed := Some false |})])
  /\ todos (fst (run Create Samples.offline Samples.busy))
     = todos Samples.busy.
Proof.
  split; [reflexivity|].
  apply (@C1_failure_leaves_state Create Samples.offline Samples.busy
           (fst (run Create Samples.offline Samples.busy))
           (snd (run Create Samples.offline Samples.busy)));
    [reflexivity | discriminate | reflexivity].
Defined.

(** C2. When the input text is not empty once trimmed, submitting the form
    sends exactly one request, a create request carrying the trimmed text,
    the placeholder owner ["1"] and [completed = false].  If the store
    fulfils it, the document it returned is appended at the end of the list
    and the input is cleared; if the store rejects it, the input text is
    what it was. *)
Theorem C2_create (env : Env) (s : State) :
  JsString.trim (todoText s) <> [] ->
  let request :=
    createDocument DATABASE_ID COLLECTION_ID (ID_unique env)
      {| data_todo := Some (JsString.trim (todoText s));
         data_userId := Some (js "1");
         data_completed := Some false |} in
  let s' := fst (handleSubmit env s) in
  snd (handleSubmit env s) = [call request]
  /\ match databases env request with
     | Fulfilled response =>
         todos s' = todos s ++ [response] /\ todoText s' = js ""
     | Rejected _ =>
         todoText s' = todoText s /\ todos s' = todos s
     end.
Proof.
  intros Hne. simpl. unfold handleSubmit.
  rewrite (trim_nonempty_test _ Hne). simpl.
  split; [reflexivity|].
  destruct (databases env _) as [response|err]; simpl; split; reflexivity.
Qed.

Lemma C2_create_witness :
  JsString.trim (todoText Samples.busy) = js "Eggs"
  /\ snd (handleSubmit Samples.online Samples.busy)
     = [call (createDocument (js "todos") (js "todosdata") (js "c3")
                {| data_todo := Some (js "Eggs");
                   data_userId := Some (js "1");
                   data_completed := Some false |})]
  /\ map todo (todos (fst (handleSubmit Samples.online Samples.busy)))
     = [js "Buy milk"; js "Bread"; js "Eggs"]
  /\ todoText (fst (handleSubmit Samples.online Samples.busy)) = js "".
Proof.
  split; [reflexivity|].
  assert (Hne : JsString.trim (todoText Samples.busy) <> [])
    by (vm_compute; discriminate).
  destruct (C2_create Samples.online Samples.busy Hne) as [Hsent Hstate].
  split; [exact Hsent|].
  cbn [databases Samples.online Samples.store_up] in Hstate.
  destruct Hstate as [Htodos Htext].
  split; [rewrite Htodos; reflexivity | exact Htext].
Defined.

(** *** Toggling *)

Lemma flip_completed_twice (id : jsstring) (t : Todo) :
  flip_completed id (flip_completed id t) = t.
Proof.
  unfold flip_completed at 2. destruct (has_id id t) eqn:E.
  - unfold flip_completed. unfold has_id in *. simpl. rewrite E.
    destruct t; unfold with_completed; simpl. rewrite negb_involutive.
    reflexivity.
  - unfold flip_completed. rewrite E. reflexivity.
Qed.

Lemma find_has_id_present (id : jsstring) (l : list Todo) (t : Todo) :
  In t l -> doc_id t = id -> exists t0, find (has_id id) l = Some t0.
Proof.
  intros Hin Hid. destruct (find (has_id id) l) as [t0|] eqn:E.
  - exists t0. reflexivity.
  - apply (find_none _ _ E) in Hin. unfold has_id in Hin.
    rewrite Hid, jsstring_eqb_refl in Hin. discriminate.
Qed.

Lemma find_has_id_absent (id : jsstring) (l : list Todo) :
  (forall t, In t l -> doc_id t <> id) -> find (has_id id) l = None.
Proof.
  intros H. destruct (find (has_id id) l) as [t0|] eqn:E; [|reflexivity].
  apply find_some in E. destruct E as [Hin Hid].
  apply jsstring_eqb_eq in Hid. elim (H t0 Hin Hid).
Qed.

(** A fulfilled toggle of a todo that is there maps the flip over the list. *)
Lemma toggleTodo_fulfilled (env : Env) (id : jsstring) (s : State) (t : Todo) :
  In t (todos s) -> doc_id t = id ->
  forallb (fulfilled (databases env)) (snd (toggleTodo id env s)) = true ->
  todos (fst (toggleTodo id env s)) = map (flip_completed id) (todos s).
Proof.
  intros Hin Hid Hok.
  destruct (find_has_id_present _ _ Hin Hid) as [t0 Hfind].
  unfold toggleTodo in *. rewrite Hfind in *. simpl in Hok |- *.
  rewrite andb_true_r in Hok. unfold fulfilled in Hok. simpl in Hok.
  destruct (databases env _) as [response|err]; [reflexivity|discriminate].
Qed.

(** C3. Take a todo of the list, at any position, and toggle its id twice,
    the store fulfilling both updates.  After the first toggle its completed
    flag is the opposite; after the second the entry is again what it was,
    and so is the whole list. *)
Theorem C3_toggle_twice
  (env1 env2 : Env) (id : jsstring) (s : State) (n : nat) (t : Todo) :
  nth_error (todos s) n = Some t ->
  doc_id t = id ->
  let s1 := fst (toggleTodo id env1 s) in
  let s2 := fst (toggleTodo id env2 s1) in
  forallb (fulfilled (databases env1)) (snd (toggleTodo id env1 s)) = true ->
  forallb (fulfilled (databases env2)) (snd (toggleTodo id env2 s1)) = true ->
  option_map completed (nth_error (todos s1) n) = Some (negb (completed t))
  /\ nth_error (todos s2) n = Some t
  /\ todos s2 = todos s.
Proof.
  intros Hn Hid s1 s2 Hok1 Hok2.
  assert (Hin : In t (todos s)) by (eapply nth_error_In; exact Hn).
  assert (H1 : todos s1 = map (flip_completed id) (todos s))
    by (eapply toggleTodo_fulfilled; eauto).
  assert (Hn1 : nth_error (todos s1) n = Some (flip_completed id t))
    by (rewrite H1, nth_error_map, Hn; reflexivity).
  assert (H2 : todos s2 = map (flip_completed id) (todos s1)).
  { eapply toggleTodo_fulfilled.
    - eapply nth_error_In; exact Hn1.
    - unfold flip_completed. destruct (has_id id t); exact Hid.
    - exact Hok2. }
  assert (Hback : todos s2 = todos s).
  { rewrite H2, H1, map_map. rewrite <- (map_id (todos s)) at 2.
    apply map_ext. intros a. apply flip_completed_twice. }
  split; [|split].
  - rewrite Hn1. simpl. unfold flip_completed, has_id.
    rewrite Hid, jsstring_eqb_refl. reflexivity.
  - rewrite Hback. exact Hn.
  - exact Hback.
Qed.

Lemma C3_toggle_twice_witness :
  let s1 := fst (toggleTodo (js "a1") Samples.online Samples.busy) in
  let s2 := fst (toggleTodo (js "a1") Samples.online s1) in
  map completed (todos Samples.busy) = [true; false]
  /\ map completed (todos s1) = [false; false]
  /\ option_map completed (nth_error (todos s1) 0) = Some false
  /\ nth_error (todos s2) 0 = Some Samples.milk
  /\ todos s2 = todos Samples.busy.
Proof.
  intros s1 s2.
  split; [reflexivity|]. split; [reflexivity|].
  apply (@C3_toggle_twice Samples.online Samples.online (js "a1")
           Samples.busy 0 Samples.milk);
    reflexivity.
Defined.

(** C4. Toggling an id that no todo of the list carries does nothing: no
    request is sent and the state, with its list, its error and its loading
    flag, is the one before. *)
Theorem C4_toggle_absent (env : Env) (id : jsstring) (s : State) :
  (forall t, In t (todos s) -> doc_id t <> id) ->
  toggleTodo id env s = (s, [])
  /\ snd (toggleTodo id env s) = []
  /\ todos (fst (toggleTodo id env s)) = todos s
  /\ error (fst (toggleTodo id env s)) = error s
  /\ loading (fst (toggleTodo id env s)) = loading s.
Proof.
  intros Habs. apply find_has_id_absent in Habs.
  unfold toggleTodo. rewrite Habs. repeat split.
Qed.

Lemma C4_toggle_absent_witness :
  (forall t, In t (todos Samples.busy) -> doc_id t <> js "zz")
  /\ toggleTodo (js "zz") Samples.online Samples.busy = (Samples.busy, []).
Proof.
  assert (Habs : forall t, In t (todos Samples.busy) -> doc_id t <> js "zz").
  { intros t [<-|[<-|[]]]; vm_compute; discriminate. }
  split; [exact Habs|].
  exact (proj1 (@C4_toggle_absent Samples.online (js "zz") Samples.busy Habs)).
Defined.

(** *** Deleting *)

Lemma filter_Removed (id : jsstring) (l : list Todo) :
  Removed id l (filter (fun todo => negb (has_id id todo)) l).
Proof.
  induction l as [|t l IH]; simpl; [constructor|].
  unfold has_id at 1. destruct (JsString.eqb (doc_id t) id) eqn:E; simpl.
  - apply Removed_drop; [apply jsstring_eqb_eq; exact E | exact IH].
  - apply Removed_keep; [apply jsstring_eqb_neq; exact E | exact IH].
Qed.

(** What [Removed] says about membership: the survivors are the entries
    with another id. *)
Lemma Removed_In (id : jsstring) (before after : list Todo) :
  Removed id before after ->
  forall t, In t after <-> In t before /\ doc_id t <> id.
Proof.
  induction 1 as [|t0 before after Hid _ IH|t0 before after Hid _ IH];
    intros t; simpl.
  - tauto.
  - rewrite IH. split; [tauto|].
    intros [[<-|Hin] Hne]; [contradiction | tauto].
  - rewrite IH. split.
    + intros [<-|[Hin Hne]]; tauto.
    + intros [[<-|Hin] Hne]; tauto.
Qed.

(** C5. Deleting an id sends one delete request for it.  If the store
    fulfils it, the list loses exactly the entries carrying that id, the
    others staying as they are and in their order; if the store rejects it,
    the list is the one before and the error message is set. *)
Theorem C5_delete (env : Env) (id : jsstring) (s : State) :
  let request := deleteDocument DATABASE_ID COLLECTION_ID id in
  let s' := fst (deleteTodo id env s) in
  snd (deleteTodo id env s) = [call request]
  /\ match databases env request with
     | Fulfilled _ =>
         Removed id (todos s) (todos s')
         /\ (forall t, In t (todos s') <-> In t (todos s) /\ doc_id t <> id)
     | Rejected _ =>
         todos s' = todos s
         /\ error s' = Some (js "Failed to delete todo")
     end.
Proof.
  simpl. split; [reflexivity|].
  unfold deleteTodo.
  destruct (databases env _) as [response|err]; simpl.
  - split; [apply filter_Removed|].
    apply Removed_In with (id := id). apply filter_Removed.
  - split; reflexivity.
Qed.

(** C10. Deleting never touches the edit-mode cells: whatever the store
    answers, the editing id and the draft are the ones before.  So when the
    todo being edited is deleted and the store fulfils the request, the
    editing id still holds an id that no entry of the list carries. *)
Theorem C10_delete_keeps_edit_mode (env : Env) (id : jsstring) (s : State) :
  let s' := fst (deleteTodo id env s) in
  editingId s' = editingId s
  /\ editText s' = editText s
  /\ (editingId s = Some id ->
      forallb (fulfilled (databases env)) (snd (deleteTodo id env s)) = true ->
      editingId s' = Some id
      /\ find (has_id id) (todos s') = None
      /\ forall t, In t (todos s') -> doc_id t <> id).
Proof.
  simpl. unfold deleteTodo.
  destruct (databases env _) as [response|err] eqn:E; simpl.
  - split; [reflexivity|]. split; [reflexivity|].
    intros Hed _. split; [exact Hed|].
    assert (Hgone : forall t,
               In t (filter (fun todo => negb (has_id id todo)) (todos s)) ->
               doc_id t <> id).
    { intros t Hin. apply filter_In in Hin. destruct Hin as [_ Hne].
      apply negb_true_iff in Hne. apply jsstring_eqb_neq. exact Hne. }
    split; [apply find_has_id_absent; exact Hgone | exact Hgone].
  - split; [reflexivity|]. split; [reflexivity|].
    intros _ Hok. unfold fulfilled in Hok. simpl in Hok.
    rewrite E in Hok. discriminate.
Qed.

Lemma C10_delete_keeps_edit_mode_witness :
  let s' := fst (deleteTodo (js "a1") Samples.online Samples.busy) in
  editingId Samples.busy = Some (js "a1")
  /\ todos s' = [Samples.bread]
  /\ editText s' = js " Buy oat milk  "
  /\ editingId s' = Some (js "a1")
  /\ find (has_id (js "a1")) (todos s') = None.
Proof.
  intros s'.
  destruct (C10_delete_keeps_edit_mode Samples.online (js "a1") Samples.busy)
    as [_ [Htext Hedit]].
  destruct (Hedit eq_refl eq_refl) as [Hid [Hfind _]].
  split; [reflexivity|]. split; [reflexivity|].
  split; [exact Htext|]. split; [exact Hid | exact Hfind].
Defined.

(** *** Editing *)

Lemma map_with_todo_Retexted (id text : jsstring) (l : list Todo) :
  Forall2 (Retexted id text) l
    (map (fun todo => if has_id id todo then with_todo text todo else todo) l).
Proof.
  induction l as [|t l IH]; simpl; constructor; [|exact IH].
  unfold has_id, Retexted. destruct (JsString.eqb (doc_id t) id) eqn:E.
  - split.
    + intros _. unfold same_but_text. simpl. repeat split.
    + intros Hne. apply jsstring_eqb_eq in E. contradiction.
  - split.
    + intros Hid. apply jsstring_eqb_neq in E. contradiction.
    + reflexivity.
Qed.

(** C6. Take the id of a todo of the list and a draft that is not empty
    once trimmed.  Saving sends one update request carrying the trimmed
    draft as the text; once the store fulfils it, the entries named by the
    id have the trimmed draft as their text and keep their id, their
    completed flag and every other field, all other entries are untouched,
    the editing id is null and the draft is empty. *)
Theorem C6_save_update
  (env : Env) (id : jsstring) (s : State) (t : Todo) :
  In t (todos s) ->
  doc_id t = id ->
  JsString.trim (editText s) <> [] ->
  forallb (fulfilled (databases env)) (snd (saveUpdate id env s)) = true ->
  let s' := fst (saveUpdate id env s) in
  snd (saveUpdate id env s)
  = [call (updateDocument DATABASE_ID COLLECTION_ID id
             {| data_todo := Some (JsString.trim (editText s));
                data_userId := None; data_completed := None |})]
  /\ Forall2 (Retexted id (JsString.trim (editText s))) (todos s) (todos s')
  /\ editingId s' = None
  /\ editText s' = js "".
Proof.
  intros _ _ Hne. unfold saveUpdate.
  rewrite (trim_nonempty_test _ Hne). simpl.
  rewrite andb_true_r. unfold fulfilled. simpl.
  destruct (databases env _) as [response|err]; simpl; [|discriminate].
  intros _. split; [reflexivity|].
  split; [apply map_with_todo_Retexted|].
  split; reflexivity.
Qed.

Lemma C6_save_update_witness :
  let s' := fst (saveUpdate (js "a1") Samples.online Samples.busy) in
  map todo (todos Samples.busy) = [js "Buy milk"; js "Bread"]
  /\ map todo (todos s') = [js "Buy oat milk"; js "Bread"]
  /\ map completed (todos s') = [true; false]
  /\ Forall2 (Retexted (js "a1") (js "Buy oat milk"))
       (todos Samples.busy) (todos s')
  /\ editingId s' = None
  /\ editText s' = js "".
Proof.
  intros s'.
  split; [reflexivity|]. split; [reflexivity|]. split; [reflexivity|].
  assert (Hin : In Samples.milk (todos Samples.busy)) by (left; reflexivity).
  assert (Hne : JsString.trim (editText Samples.busy) <> [])
    by (vm_compute; discriminate).
  exact (proj2 (@C6_save_update Samples.online (js "a1") Samples.busy
                  Samples.milk Hin eq_refl Hne eq_refl)).
Defined.

(** C7. Take a todo of the list.  Beginning to edit its id and then
    cancelling sends no request, leaves the list, and so the stored text of
    that todo, as it was, and leaves the edit mode in its initial value: no
    editing id and an empty draft.  In between, the editing id is that id
    and the draft is the text of an entry carrying it. *)
Theorem C7_edit_cancel (env : Env) (id : jsstring) (s : State) (t : Todo) :
  In t (todos s) ->
  doc_id t = id ->
  let s1 := fst (updateToDo id env s) in
  let r := andThen (updateToDo id) cancelUpdate env s in
  snd r = []
  /\ todos (fst r) = todos s
  /\ In t (todos (fst r))
  /\ editingId (fst r) = editingId initialState
  /\ editText (fst r) = editText initialState
  /\ editingId s1 = Some id
  /\ (exists t0, In t0 (todos s) /\ doc_id t0 = id /\ editText s1 = todo t0).
Proof.
  intros Hin Hid.
  destruct (find_has_id_present _ _ Hin Hid) as [t0 Hfind].
  unfold andThen, updateToDo, cancelUpdate. rewrite Hfind. simpl.
  repeat (split; [reflexivity || exact Hin|]).
  exists t0. apply find_some in Hfind. destruct Hfind as [Hin0 Hid0].
  apply jsstring_eqb_eq in Hid0. repeat split; assumption.
Qed.

Lemma C7_edit_cancel_witness :
  let r := andThen (updateToDo (js "b2")) cancelUpdate
             Samples.online Samples.busy in
  editText (fst (updateToDo (js "b2") Samples.online Samples.busy))
  = js "Bread"
  /\ snd r = []
  /\ todos (fst r) = [Samples.milk; Samples.bread]
  /\ editingId (fst r) = None
  /\ editText (fst r) = js "".
Proof.
  intros r. split; [reflexivity|].
  assert (Hin : In Samples.bread (todos Samples.busy))
    by (right; left; reflexivity).
  destruct (@C7_edit_cancel Samples.online (js "b2") Samples.busy
              Samples.bread Hin eq_refl)
    as [Hsent [Htodos [_ [Hid [Htext _]]]]].
  split; [exact Hsent|]. split; [exact Htodos|].
  split; [exact Hid | exact Htext].
Defined.

(** *** Submitting and loading *)

(** C8. When the input text is empty or made of white space only,
    submitting the form sends no request and changes nothing: the list, the
    error (none is shown), the loading flag and the input text are the ones
    before. *)
Theorem C8_blank_submit (env : Env) (s : State) :
  forallb JsString.isWhiteSpace (todoText s) = true ->
  handleSubmit env s = (s, [])
  /\ snd (handleSubmit env s) = []
  /\ todos (fst (handleSubmit env s)) = todos s
  /\ error (fst (handleSubmit env s)) = error s
  /\ loading (fst (handleSubmit env s)) = loading s
  /\ todoText (fst (handleSubmit env s)) = todoText s.
Proof.
  intros Hblank. apply trim_empty_test in Hblank.
  unfold handleSubmit. rewrite Hblank. repeat split.
Qed.

Lemma C8_blank_submit_witness :
  handleSubmit Samples.online (setTodoText Samples.blank Samples.busy)
  = (setTodoText Samples.blank Samples.busy, [])
  /\ handleSubmit Samples.online initialState = (initialState, []).
Proof.
  split.
  - exact (proj1 (@C8_blank_submit Samples.online
                    (setTodoText Samples.blank Samples.busy) eq_refl)).
  - exact (proj1 (@C8_blank_submit Samples.online initialState eq_refl)).
Defined.

(** C9. On mount the page asks the store for the documents of the database
    ["todos"] and collection ["todosdata"], in one request without query.
    If the store fulfils it, the list becomes exactly the documents of the
    answer, whatever it was; if the store rejects it, the list is left as it
    was, which on mount is empty, and the error message is set. *)
Theorem C9_list_load (env : Env) :
  let request := listDocuments (js "todos") (js "todosdata") None in
  let r := fetchTodos env initialState in
  snd r = [call request]
  /\ match databases env request with
     | Fulfilled response =>
         todos (fst r) = documents response
         /\ error (fst r) = None
         /\ (forall s, todos (fst (fetchTodos env s)) = documents response)
     | Rejected _ =>
         todos (fst r) = []
         /\ error (fst r) = Some (js "Failed to fetch todos")
         /\ (forall s, todos (fst (fetchTodos env s)) = todos s)
     end.
Proof.
  simpl. split; [reflexivity|].
  unfold fetchTodos.
  change (js "todos") with DATABASE_ID.
  change (js "todosdata") with COLLECTION_ID.
  destruct (databases env _) as [response|err]; simpl; repeat split.
Qed.

(** ** Further properties of the page *)

(** *** Trimming *)

Lemma trimStart_split (s : jsstring) :
  exists pre, s = pre ++ JsString.trimStart s
              /\ forallb JsString.isWhiteSpace pre = true.
Proof.
  induction s as [|c s [pre [Hs Hpre]]]; simpl.
  - exists []. split; reflexivity.
  - destruct (JsString.isWhiteSpace c) eqn:E.
    + exists (c :: pre). simpl. rewrite E, Hpre. split; [|reflexivity].
      f_equal. exact Hs.
    + exists []. split; reflexivity.
Qed.

Lemma trimEnd_split (s : jsstring) :
  exists post, s = JsString.trimEnd s ++ post
               /\ forallb JsString.isWhiteSpace post = true.
Proof.
  unfold JsString.trimEnd.
  destruct (trimStart_split (rev s)) as [pre [Hs Hpre]].
  exists (rev pre). split.
  - rewrite <- rev_app_distr, <- Hs, rev_involutive. reflexivity.
  - rewrite forallb_rev. exact Hpre.
Qed.

Lemma trimEnd_last (s : jsstring) (c : JsString.code_unit) (front : jsstring) :
  JsString.trimEnd s = front ++ [c] -> JsString.isWhiteSpace c = false.
Proof.
  unfold JsString.trimEnd. intros H.
  apply (f_equal (@rev _)) in H. rewrite rev_involutive, rev_app_distr in H.
  simpl in H. pose proof (trimStart_head (rev s)) as Hh.
  rewrite H in Hh. exact Hh.
Qed.

Lemma trim_is_TrimOf (s : jsstring) : TrimOf s (JsString.trim s).
Proof.
  unfold JsString.trim.
  destruct (trimStart_split s) as [pre [Hs Hpre]].
  destruct (trimEnd_split (JsString.trimStart s)) as [post [Hu Hpost]].
  split; [|split].
  - exists pre, post. split; [|split; assumption].
    rewrite <- Hu. exact Hs.
  - intros c rest Hx. pose proof (trimStart_head s) as Hh.
    rewrite Hu, Hx in Hh. exact Hh.
  - intros c front. apply trimEnd_last.
Qed.

Lemma trim_length (s : jsstring) :
  List.length (JsString.trim s) <= List.length s.
Proof.
  destruct (trim_is_TrimOf s) as [[pre [post [Hs _]]] _].
  rewrite Hs at 2. rewrite !length_app. lia.
Qed.

(** *** Edge cases of the handlers *)

(** X1. Saving a draft that is empty or made of white space only does
    nothing: no request is sent and the state is the one before, so the
    edit box stays open on the same draft and no error is shown. *)
Theorem X1_save_blank_draft (env : Env) (id : jsstring) (s : State) :
  forallb JsString.isWhiteSpace (editText s) = true ->
  saveUpdate id env s = (s, []).
Proof.
  intros Hblank. apply trim_empty_test in Hblank.
  unfold saveUpdate. rewrite Hblank. reflexivity.
Qed.

Lemma X1_save_blank_draft_witness :
  saveUpdate (js "a1") Samples.online (setEditText Samples.blank Samples.busy)
  = (setEditText Samples.blank Samples.busy, []).
Proof.
  exact (@X1_save_blank_draft Samples.online (js "a1")
           (setEditText Samples.blank Samples.busy) eq_refl).
Defined.

(** X2. Asking to edit an id that no todo of the list carries does
    nothing: the editing id and the draft are not touched, and nothing is
    sent. *)
Theorem X2_begin_edit_absent (env : Env) (id : jsstring) (s : State) :
  (forall t, In t (todos s) -> doc_id t <> id) ->
  updateToDo id env s = (s, []).
Proof.
  intros Habs. apply find_has_id_absent in Habs.
  unfold updateToDo. rewrite Habs. reflexivity.
Qed.

Lemma X2_begin_edit_absent_witness :
  updateToDo (js "zz") Samples.online Samples.busy = (Samples.busy, []).
Proof.
  apply X2_begin_edit_absent.
  intros t [<-|[<-|[]]]; vm_compute; discriminate.
Defined.

(** X3. The text a create request or an edit-save request carries is never
    empty and is the typed text without the white space around it: the
    typed text is that text between two runs of white space, and the text
    sent neither starts nor ends with white space. *)
Theorem X3_sent_text_is_trimmed (env : Env) (id : jsstring) (s : State) :
  (snd (handleSubmit env s) = []
   \/ exists x,
        snd (handleSubmit env s)
        = [call (createDocument DATABASE_ID COLLECTION_ID (ID_unique env)
                   {| data_todo := Some x; data_userId := Some (js "1");
                      data_completed := Some false |})]
        /\ x <> [] /\ TrimOf (todoText s) x)
  /\ (snd (saveUpdate id env s) = []
      \/ exists x,
           snd (saveUpdate id env s)
           = [call (updateDocument DATABASE_ID COLLECTION_ID id
                      {| data_todo := Some x; data_userId := None;
                         data_completed := None |})]
           /\ x <> [] /\ TrimOf (editText s) x).
Proof.
  split.
  - unfold handleSubmit.
    destruct (JsString.eqb (JsString.trim (todoText s)) (js "")) eqn:E;
      [left; reflexivity|].
    right. exists (JsString.trim (todoText s)).
    split; [reflexivity|]. split; [|apply trim_is_TrimOf].
    apply jsstring_eqb_neq in E. exact E.
  - unfold saveUpdate.
    destruct (JsString.eqb (JsString.trim (editText s)) (js "")) eqn:E;
      [left; reflexivity|].
    right. exists (JsString.trim (editText s)).
    split; [reflexivity|]. split; [|apply trim_is_TrimOf].
    apply jsstring_eqb_neq in E. exact E.
Qed.

(** *** What the handlers do to the list *)

(** Case analysis on the answer of the store the goal is waiting for. *)
Ltac case_answer response err E :=
  match goal with
  | |- context [databases ?env ?request] =>
      destruct (databases env request) as [response|err] eqn:E
  end.

Lemma filter_keeps_all {A} (p : A -> bool) (l : list A) :
  (forall x, In x l -> p x = true) -> filter p l = l.
Proof.
  induction l as [|x l IH]; simpl; intros H; [reflexivity|].
  rewrite (H x (or_introl eq_refl)). f_equal. apply IH.
  intros y Hy. apply H. right. exact Hy.
Qed.


Lemma NoDup_snoc {A} (l : list A) (x : A) :
  NoDup l -> ~ In x l -> NoDup (l ++ [x]).
Proof.
  induction l as [|y l IH]; simpl; intros Hnd Hnot.
  - constructor; [intros [] | constructor].
  - inversion Hnd as [|z zs Hy Hl]; subst. constructor.
    + intros Hin. apply in_app_or in Hin.
      destruct Hin as [Hin|[Heq|[]]]; [contradiction|].
      apply Hnot. left. symmetry. exact Heq.
    + apply IH; [exact Hl|]. intros Hin. apply Hnot. right. exact Hin.
Qed.

Lemma other_id_kept (id : jsstring) (l : list Todo) :
  ~ In id (ids l) ->
  filter (fun todo => negb (has_id id todo)) l = l.
Proof.
  intros Hnot. apply filter_keeps_all. intros t Hin.
  apply negb_true_iff. apply jsstring_eqb_neq. intros Hid.
  apply Hnot. unfold ids. rewrite <- Hid. apply in_map. exact Hin.
Qed.

Lemma ids_filter_NoDup (p : Todo -> bool) (l : list Todo) :
  NoDup (ids l) -> NoDup (ids (filter p l)).
Proof.
  unfold ids. induction l as [|t l IH]; simpl; intros H; [constructor|].
  inversion H as [|x xs Hnot Hrest]; subst.
  destruct (p t); simpl; [|apply IH; exact Hrest].
  constructor; [|apply IH; exact Hrest].
  intros Hin. apply Hnot. apply in_map_iff in Hin.
  destruct Hin as [t' [Hid Hin]]. apply filter_In in Hin.
  rewrite <- Hid. apply in_map. tauto.
Qed.

Lemma ids_map_same (f : Todo -> Todo) (l : list Todo) :
  (forall t, doc_id (f t) = doc_id t) -> ids (map f l) = ids l.
Proof.
  intros Hf. unfold ids. rewrite map_map. apply map_ext. exact Hf.
Qed.

Lemma toggleTodo_list (env : Env) (id : jsstring) (s : State) :
  todos (fst (toggleTodo id env s)) = todos s
  \/ todos (fst (toggleTodo id env s)) = map (flip_completed id) (todos s).
Proof.
  unfold toggleTodo. destruct (find _ _); [|left; reflexivity]. simpl.
  destruct (databases env _); [right | left]; reflexivity.
Qed.

Lemma saveUpdate_list (env : Env) (id : jsstring) (s : State) :
  todos (fst (saveUpdate id env s)) = todos s
  \/ todos (fst (saveUpdate id env s))
     = map (fun todo =>
              if has_id id todo
              then with_todo (JsString.trim (editText s)) todo
              else todo) (todos s).
Proof.
  unfold saveUpdate. destruct (JsString.eqb _ _); [left; reflexivity|]. simpl.
  destruct (databases env _); [right | left]; reflexivity.
Qed.

Lemma deleteTodo_list (env : Env) (id : jsstring) (s : State) :
  todos (fst (deleteTodo id env s)) = todos s
  \/ todos (fst (deleteTodo id env s))
     = filter (fun todo => negb (has_id id todo)) (todos s).
Proof.
  unfold deleteTodo. simpl.
  destruct (databases env _); [right | left]; reflexivity.
Qed.

(** X4. Whatever the store answers, toggling and saving an edit never add,
    drop or reorder entries: the ids of the list are the same, in the same
    order.  Toggling changes no text and saving changes no completed flag. *)
Theorem X4_toggle_and_save_keep_ids (env : Env) (id : jsstring) (s : State) :
  let toggled := todos (fst (toggleTodo id env s)) in
  let saved := todos (fst (saveUpdate id env s)) in
  ids toggled = ids (todos s)
  /\ map todo toggled = map todo (todos s)
  /\ ids saved = ids (todos s)
  /\ map completed saved = map completed (todos s).
Proof.
  simpl.
  destruct (toggleTodo_list env id s) as [-> | ->];
    destruct (saveUpdate_list env id s) as [-> | ->];
    repeat split; try reflexivity;
    try (apply ids_map_same; intros t; unfold flip_completed;
         destruct (has_id id t); reflexivity);
    rewrite map_map; apply map_ext; intros t; unfold flip_completed;
    destruct (has_id id t); reflexivity.
Qed.

(** X5. Unlike toggling, deleting does not look the id up first: for an id
    that no todo of the list carries, the delete request is sent all the
    same, and whatever the store answers the list stays as it was. *)
Theorem X5_delete_absent_still_asks (env : Env) (id : jsstring) (s : State) :
  (forall t, In t (todos s) -> doc_id t <> id) ->
  snd (deleteTodo id env s)
  = [call (deleteDocument DATABASE_ID COLLECTION_ID id)]
  /\ todos (fst (deleteTodo id env s)) = todos s.
Proof.
  intros Habs. split; [reflexivity|].
  destruct (deleteTodo_list env id s) as [-> | ->]; [reflexivity|].
  apply other_id_kept. intros Hin. apply in_map_iff in Hin.
  destruct Hin as [t [Hid Hin]]. exact (Habs t Hin Hid).
Qed.

Lemma X5_delete_absent_still_asks_witness :
  snd (deleteTodo (js "zz") Samples.online Samples.busy)
  = [call (deleteDocument (js "todos") (js "todosdata") (js "zz"))]
  /\ todos (fst (deleteTodo (js "zz") Samples.online Samples.busy))
     = [Samples.milk; Samples.bread].
Proof.
  apply (@X5_delete_absent_still_asks Samples.online (js "zz") Samples.busy).
  intros t [<-|[<-|[]]]; vm_compute; discriminate.
Defined.

(** X6. The ids of the list stay pairwise distinct as long as the store
    hands out distinct ids: if they are distinct before an operation, the
    store answers a create with a document whose id is not in the list, and
    answers a list load with documents of distinct ids, then they are
    distinct after it. *)
Theorem X6_unique_ids_kept (op : Operation) (env : Env) (s : State) :
  NoDup (ids (todos s)) ->
  (forall data response,
      databases env (createDocument DATABASE_ID COLLECTION_ID
                       (ID_unique env) data) = Fulfilled response ->
      ~ In (doc_id response) (ids (todos s))) ->
  (forall response,
      databases env (listDocuments DATABASE_ID COLLECTION_ID None)
      = Fulfilled response ->
      NoDup (ids (documents response))) ->
  NoDup (ids (todos (fst (run op env s)))).
Proof.
  intros Hnd Hcreate Hlist. destruct op as [| |id|id|id]; cbn [run].
  - unfold fetchTodos. simpl.
    case_answer response err E; simpl; [apply Hlist; reflexivity | exact Hnd].
  - unfold handleSubmit. destruct (JsString.eqb _ _); [exact Hnd|]. simpl.
    case_answer response err E; simpl; [|exact Hnd].
    unfold ids. rewrite map_app. simpl.
    apply Hcreate in E. apply NoDup_snoc; assumption.
  - destruct (toggleTodo_list env id s) as [-> | ->]; [exact Hnd|].
    rewrite ids_map_same; [exact Hnd|].
    intros t. unfold flip_completed. destruct (has_id id t); reflexivity.
  - destruct (saveUpdate_list env id s) as [-> | ->]; [exact Hnd|].
    rewrite ids_map_same; [exact Hnd|].
    intros t. destruct (has_id id t); reflexivity.
  - destruct (deleteTodo_list env id s) as [-> | ->]; [exact Hnd|].
    apply ids_filter_NoDup. exact Hnd.
Qed.

Lemma sample_ids_distinct : NoDup (ids [Samples.milk; Samples.bread]).
Proof.
  repeat constructor; simpl; intros H;
    repeat (destruct H as [H|H]; [vm_compute in H; discriminate H|]);
    exact H.
Qed.

Lemma X6_unique_ids_kept_witness :
  ids (todos (fst (run Create Samples.online Samples.busy)))
  = [js "a1"; js "b2"; js "c3"]
  /\ NoDup (ids (todos (fst (run Create Samples.online Samples.busy)))).
Proof.
  split; [reflexivity|].
  apply (@X6_unique_ids_kept Create Samples.online Samples.busy).
  - exact sample_ids_distinct.
  - intros data response E. injection E as <-. simpl.
    intros H; repeat (destruct H as [H|H]; [vm_compute in H; discriminate H|]);
      exact H.
  - intros response E. injection E as <-. exact sample_ids_distinct.
Defined.

(** X7. When the ids of the list are pairwise distinct, a fulfilled delete
    of the id of a todo of the list takes out that one entry and nothing
    else: the list after is the list before with the entry cut out, one
    entry shorter. *)
Theorem X7_delete_present_unique
  (env : Env) (id : jsstring) (s : State) (t : Todo) :
  NoDup (ids (todos s)) ->
  In t (todos s) ->
  doc_id t = id ->
  forallb (fulfilled (databases env)) (snd (deleteTodo id env s)) = true ->
  let s' := fst (deleteTodo id env s) in
  (exists before after,
      todos s = before ++ t :: after /\ todos s' = before ++ after)
  /\ S (List.length (todos s')) = List.length (todos s).
Proof.
  intros Hnd Hin Hid Hok. cbv zeta.
  assert (Hlist : todos (fst (deleteTodo id env s))
                  = filter (fun todo => negb (has_id id todo)) (todos s)).
  { unfold deleteTodo in *. simpl in *. rewrite andb_true_r in Hok.
    unfold fulfilled in Hok. simpl in Hok.
    case_answer response err E; [reflexivity | discriminate]. }
  destruct (in_split _ _ Hin) as [before [after Hsplit]].
  assert (Hcut : todos (fst (deleteTodo id env s)) = before ++ after).
  { rewrite Hlist, Hsplit, filter_app. simpl.
    unfold has_id at 2. rewrite Hid, jsstring_eqb_refl. simpl.
    rewrite Hsplit in Hnd. unfold ids in Hnd. rewrite map_app in Hnd.
    simpl in Hnd. apply NoDup_remove_2 in Hnd. rewrite Hid in Hnd.
    rewrite !other_id_kept; [reflexivity | |]; intros H; apply Hnd;
      apply in_or_app; [right | left]; exact H. }
  split.
  - exists before, after. split; assumption.
  - rewrite Hcut, Hsplit, !length_app. simpl. lia.
Qed.

Lemma X7_delete_present_unique_witness :
  todos (fst (deleteTodo (js "a1") Samples.online Samples.busy))
  = [Samples.bread]
  /\ S (List.length
          (todos (fst (deleteTodo (js "a1") Samples.online Samples.busy))))
     = List.length (todos Samples.busy).
Proof.
  split; [reflexivity|].
  apply (@X7_delete_present_unique Samples.online (js "a1") Samples.busy
           Samples.milk);
    [exact sample_ids_distinct | left; reflexivity | reflexivity
    | reflexivity].
Defined.

(** X8. Creating a todo and then deleting the id the store gave it, both
    fulfilled, brings the list back to what it was, provided that id was
    not already in the list. *)
Theorem X8_create_then_delete
  (env1 env2 : Env) (s : State) (created : Todo) :
  JsString.trim (todoText s) <> [] ->
  databases env1
    (createDocument DATABASE_ID COLLECTION_ID (ID_unique env1)
       {| data_todo := Some (JsString.trim (todoText s));
          data_userId := Some (js "1"); data_completed := Some false |})
  = Fulfilled created ->
  ~ In (doc_id created) (ids (todos s)) ->
  forallb (fulfilled (databases env2))
    (snd (deleteTodo (doc_id created) env2 (fst (handleSubmit env1 s))))
  = true ->
  todos (fst (handleSubmit env1 s)) = todos s ++ [created]
  /\ todos (fst (deleteTodo (doc_id created) env2 (fst (handleSubmit env1 s))))
     = todos s.
Proof.
  intros Hne Hcreated Hfresh Hok.
  assert (H1 : todos (fst (handleSubmit env1 s)) = todos s ++ [created]).
  { unfold handleSubmit. rewrite (trim_nonempty_test _ Hne). simpl.
    rewrite Hcreated. reflexivity. }
  split; [exact H1|].
  unfold deleteTodo in *. simpl in *. rewrite andb_true_r in Hok.
  unfold fulfilled in Hok. simpl in Hok.
  destruct (databases env2
              (deleteDocument DATABASE_ID COLLECTION_ID (doc_id created)));
    [|discriminate].
  simpl. rewrite H1, filter_app. simpl.
  unfold has_id at 2. rewrite jsstring_eqb_refl. simpl.
  rewrite app_nil_r. apply other_id_kept. exact Hfresh.
Qed.

Lemma X8_create_then_delete_witness :
  todos (fst (handleSubmit Samples.online Samples.busy))
  = [Samples.milk; Samples.bread; Scenes.eggs]
  /\ todos (fst (deleteTodo (js "c3") Samples.online
                   (fst (handleSubmit Samples.online Samples.busy))))
     = [Samples.milk; Samples.bread].
Proof.
  assert (Hne : JsString.trim (todoText Samples.busy) <> [])
    by (vm_compute; discriminate).
  assert (Hfresh : ~ In (doc_id Scenes.eggs) (ids (todos Samples.busy))).
  { simpl. intros H.
    repeat (destruct H as [H|H]; [vm_compute in H; discriminate H|]).
    exact H. }
  exact (@X8_create_then_delete Samples.online Samples.online Samples.busy
           Scenes.eggs Hne eq_refl Hfresh eq_refl).
Defined.

(** *** How an operation ends *)

(** X9. Every operation sends at most one request.  When it sends none the
    state is untouched, a message shown earlier included.  When it sends
    one, the loading flag is off at the end, and the error is cleared if
    the store fulfilled the request and is the operation's own message if
    the store rejected it. *)
Theorem X9_how_an_operation_ends (op : Operation) (env : Env) (s : State) :
  let s' := fst (run op env s) in
  let sent := snd (run op env s) in
  (sent = [] /\ s' = s)
  \/ (exists c,
         sent = [c]
         /\ loading s' = false
         /\ error s' = if fulfilled (databases env) c then None
                       else Some (failureMessage op)).
Proof.
  cbv zeta. destruct op as [| |id|id|id]; cbn [run].
  - right. unfold fetchTodos. eexists. split; [reflexivity|].
    unfold fulfilled. simpl. case_answer response err E; split; reflexivity.
  - unfold handleSubmit. destruct (JsString.eqb _ _);
      [left; split; reflexivity|].
    right. eexists. split; [reflexivity|].
    unfold fulfilled. simpl. case_answer response err E; split; reflexivity.
  - unfold toggleTodo. destruct (find _ _);
      [|left; split; reflexivity].
    right. eexists. split; [reflexivity|].
    unfold fulfilled. simpl. case_answer response err E; split; reflexivity.
  - unfold saveUpdate. destruct (JsString.eqb _ _);
      [left; split; reflexivity|].
    right. eexists. split; [reflexivity|].
    unfold fulfilled. simpl. case_answer response err E; split; reflexivity.
  - right. unfold deleteTodo. eexists. split; [reflexivity|].
    unfold fulfilled. simpl. case_answer response err E; split; reflexivity.
Qed.

(** *** One operation after another *)

(** X10. Once a save went through, the draft is empty, so saving again,
    for any id, does nothing and sends nothing. *)
Theorem X10_second_save_is_silent
  (env env' : Env) (id id' : jsstring) (s : State) :
  JsString.trim (editText s) <> [] ->
  forallb (fulfilled (databases env)) (snd (saveUpdate id env s)) = true ->
  let s' := fst (saveUpdate id env s) in
  saveUpdate id' env' s' = (s', []).
Proof.
  intros Hne Hok. cbv zeta.
  assert (Hdraft : editText (fst (saveUpdate id env s)) = js "").
  { unfold saveUpdate in *. rewrite (trim_nonempty_test _ Hne) in *.
    simpl in *. rewrite andb_true_r in Hok.
    unfold fulfilled in Hok. simpl in Hok.
    case_answer response err E; [reflexivity | discriminate]. }
  unfold saveUpdate at 1. rewrite Hdraft. reflexivity.
Qed.

Lemma X10_second_save_is_silent_witness :
  let s' := fst (saveUpdate (js "a1") Samples.online Samples.busy) in
  snd (saveUpdate (js "a1") Samples.online Samples.busy) <> []
  /\ saveUpdate (js "a1") Samples.online s' = (s', []).
Proof.
  intros s'. split; [discriminate|].
  apply (@X10_second_save_is_silent Samples.online Samples.online
           (js "a1") (js "a1") Samples.busy);
    [vm_compute; discriminate | reflexivity].
Defined.

(** X11. Submitting the form again right after a create: if the create was
    fulfilled the input is empty and the second submit does nothing; if it
    was rejected the text is still there and the second submit sends a
    create request with the same data again. *)
Theorem X11_submit_again (env env' : Env) (s : State) :
  JsString.trim (todoText s) <> [] ->
  let data :=
    {| data_todo := Some (JsString.trim (todoText s));
       data_userId := Some (js "1"); data_completed := Some false |} in
  let s' := fst (handleSubmit env s) in
  match databases env
          (createDocument DATABASE_ID COLLECTION_ID (ID_unique env) data) with
  | Fulfilled _ => handleSubmit env' s' = (s', [])
  | Rejected _ =>
      snd (handleSubmit env' s')
      = [call (createDocument DATABASE_ID COLLECTION_ID (ID_unique env')
                 data)]
  end.
Proof.
  intros Hne. cbv zeta.
  assert (Hs : fst (handleSubmit env s)
               = setLoading false
                   match databases env
                           (createDocument DATABASE_ID COLLECTION_ID
                              (ID_unique env)
                              {| data_todo :=
                                   Some (JsString.trim (todoText s));
                                 data_userId := Some (js "1");
                                 data_completed := Some false |}) with
                   | Fulfilled response =>
                       setTodoText (js "")
                         (setTodos (fun prevTodos => prevTodos ++ [response])
                            (setError None (setLoading true s)))
                   | Rejected _ =>
                       setError (Some (js "Failed to create todo"))
                         (setError None (setLoading true s))
                   end).
  { unfold handleSubmit. rewrite (trim_nonempty_test _ Hne). reflexivity. }
  rewrite Hs. clear Hs. case_answer response err E.
  - reflexivity.
  - unfold handleSubmit. cbn [todoText setLoading setError].
    rewrite (trim_nonempty_test _ Hne). reflexivity.
Qed.

Lemma X11_submit_again_witness :
  handleSubmit Samples.online (fst (handleSubmit Samples.online Samples.busy))
  = (fst (handleSubmit Samples.online Samples.busy), [])
  /\ snd (handleSubmit Samples.online
            (fst (handleSubmit Samples.offline Samples.busy)))
     = [call (createDocument (js "todos") (js "todosdata") (js "c3")
                {| data_todo := Some (js "Eggs");
                   data_userId := Some (js "1");
                   data_completed := Some false |})].
Proof.
  assert (Hne : JsString.trim (todoText Samples.busy) <> [])
    by (vm_compute; discriminate).
  split.
  - exact (@X11_submit_again Samples.online Samples.online Samples.busy Hne).
  - exact (@X11_submit_again Samples.offline Samples.online Samples.busy Hne).
Defined.

Lemma same_id_same_todo (l : list Todo) (a b : Todo) :
  NoDup (ids l) -> In a l -> In b l -> doc_id a = doc_id b -> a = b.
Proof.
  unfold ids. induction l as [|t l IH]; simpl; intros Hnd Ha Hb Hid;
    [contradiction|].
  inversion Hnd as [|x xs Hnot Hrest]; subst.
  destruct Ha as [<-|Ha], Hb as [<-|Hb].
  - reflexivity.
  - elim Hnot. rewrite Hid. apply in_map. exact Hb.
  - elim Hnot. rewrite <- Hid. apply in_map. exact Ha.
  - apply IH; assumption.
Qed.

(** X12. Toggling sends, as the new completed flag, the opposite of the
    flag of the first todo of the list carrying the id.  Once fulfilled,
    that entry holds in memory the value that was sent; when the ids of the
    list are pairwise distinct, so does every entry carrying the id. *)
Theorem X12_toggle_sends_what_it_stores
  (env : Env) (id : jsstring) (s : State) (t : Todo) :
  find (has_id id) (todos s) = Some t ->
  let s' := fst (toggleTodo id env s) in
  snd (toggleTodo id env s)
  = [call (updateDocument DATABASE_ID COLLECTION_ID id
             {| data_todo := None; data_userId := None;
                data_completed := Some (negb (completed t)) |})]
  /\ (forallb (fulfilled (databases env)) (snd (toggleTodo id env s)) = true ->
      find (has_id id) (todos s')
      = Some (with_completed (negb (completed t)) t)
      /\ (NoDup (ids (todos s)) ->
          forall t', In t' (todos s') -> doc_id t' = id ->
                     completed t' = negb (completed t))).
Proof.
  intros Hfind. cbv zeta.
  assert (Hsent : snd (toggleTodo id env s)
                  = [call (updateDocument DATABASE_ID COLLECTION_ID id
                             {| data_todo := None; data_userId := None;
                                data_completed :=
                                  Some (negb (completed t)) |})])
    by (unfold toggleTodo; rewrite Hfind; reflexivity).
  split; [exact Hsent|]. intros Hok.
  pose proof (find_some _ _ Hfind) as [Hin Hid].
  apply jsstring_eqb_eq in Hid.
  assert (Hlist : todos (fst (toggleTodo id env s))
                  = map (flip_completed id) (todos s))
    by (eapply toggleTodo_fulfilled; eauto).
  rewrite Hlist. split.
  - assert (Hmap : forall l,
               find (has_id id) (map (flip_completed id) l)
               = option_map (flip_completed id) (find (has_id id) l)).
    { induction l as [|a l IH]; simpl; [reflexivity|].
      unfold flip_completed at 1.
      destruct (has_id id a) eqn:Ea; unfold has_id in *; simpl;
        rewrite Ea; [|exact IH].
      unfold flip_completed, has_id. rewrite Ea. reflexivity. }
    rewrite Hmap, Hfind. simpl. unfold flip_completed, has_id.
    rewrite Hid, jsstring_eqb_refl. reflexivity.
  - intros Hnd t' Hin' Hid'. apply in_map_iff in Hin'.
    destruct Hin' as [a [Ha Hina]]. subst t'.
    assert (Hida : doc_id a = id).
    { unfold flip_completed in Hid'. destruct (has_id id a); exact Hid'. }
    assert (a = t) by (eapply same_id_same_todo; eauto; congruence).
    subst a. unfold flip_completed, has_id.
    rewrite Hid, jsstring_eqb_refl. reflexivity.
Qed.

Lemma X12_toggle_sends_what_it_stores_witness :
  snd (toggleTodo (js "a1") Samples.online Samples.busy)
  = [call (updateDocument (js "todos") (js "todosdata") (js "a1")
             {| data_todo := None; data_userId := None;
                data_completed := Some false |})]
  /\ option_map completed
       (find (has_id (js "a1"))
          (todos (fst (toggleTodo (js "a1") Samples.online Samples.busy))))
     = Some false.
Proof.
  destruct (@X12_toggle_sends_what_it_stores Samples.online (js "a1")
              Samples.busy Samples.milk eq_refl) as [Hsent Hstored].
  split; [exact Hsent|].
  destruct (Hstored eq_refl) as [Hfind _]. rewrite Hfind. reflexivity.
Defined.

(** *** The keys of the edit box *)

Lemma andThen_skip_r (h : Handler) (env : Env) (s : State) :
  andThen h skip env s = h env s.
Proof.
  unfold andThen, skip. destruct (h env s) as [s1 sent1].
  rewrite app_nil_r. reflexivity.
Qed.

(** X13. In the edit box of a row, Enter does exactly what the row's Save
    button does, Escape exactly what its Cancel button does, and any other
    key does nothing. *)
Theorem X13_keys_of_the_edit_box
  (env : Env) (id key : jsstring) (s : State) :
  dispatch (EditKeyDown id (js "Enter")) env s = dispatch (SaveClick id) env s
  /\ dispatch (EditKeyDown id (js "Escape")) env s = dispatch CancelClick env s
  /\ (key <> js "Enter" -> key <> js "Escape" ->
      dispatch (EditKeyDown id key) env s = (s, [])).
Proof.
  split; [|split].
  - simpl. unfold onKeyDown.
    change (JsString.eqb (js "Enter") (js "Enter")) with true.
    change (JsString.eqb (js "Enter") (js "Escape")) with false.
    apply andThen_skip_r.
  - reflexivity.
  - intros HnE HnX. simpl. unfold onKeyDown.
    apply jsstring_eqb_neq in HnE. apply jsstring_eqb_neq in HnX.
    rewrite HnE, HnX. reflexivity.
Qed.

Lemma X13_keys_of_the_edit_box_witness :
  dispatch (EditKeyDown (js "a1") (js "Tab")) Samples.online Samples.busy
  = (Samples.busy, [])
  /\ dispatch (EditKeyDown (js "a1") (js "Enter")) Samples.online Samples.busy
     = saveUpdate (js "a1") Samples.online Samples.busy.
Proof.
  destruct (@X13_keys_of_the_edit_box Samples.online (js "a1") (js "Tab")
              Samples.busy) as [Henter [_ Hother]].
  split; [|exact Henter].
  apply Hother; vm_compute; discriminate.
Defined.

(** *** What the screen offers *)

Lemma rows_of_render (s : State) (row : Row) :
  In row (rowsOf (render s))
  <-> exists t, In t (todos s) /\ row = renderRow s t.
Proof.
  unfold rowsOf, render. cbn [listArea].
  destruct (todos s) as [|t0 l] eqn:E; cbn [List.length Nat.eqb].
  - simpl. split; [contradiction | intros [t [[] _]]].
  - rewrite in_map_iff. split; intros [t [H1 H2]]; exists t; auto.
Qed.

Lemma isEditing_iff (editing : option jsstring) (t : Todo) :
  isEditing editing t = true <-> editing = Some (doc_id t).
Proof.
  unfold isEditing. destruct editing as [id|].
  - rewrite jsstring_eqb_eq. split; congruence.
  - split; discriminate.
Qed.

Lemma edit_row_of_render (s : State) (t : Todo)
      (input : TextInput) (save cancel : Button) :
  body (renderRow s t) = EditBox input save cancel ->
  editingId s = Some (doc_id t)
  /\ input = {| value := editText s; input_disabled := false;
                maxLength := None; onChange := EditChange;
                input_onKeyDown := Some (EditKeyDown (doc_id t)) |}
  /\ save = {| label := js "Save"; button_disabled := false;
               onClick := SaveClick (doc_id t) |}
  /\ cancel = {| label := js "Cancel"; button_disabled := false;
                 onClick := CancelClick |}.
Proof.
  unfold renderRow. cbn [body].
  destruct (isEditing (editingId s) t) eqn:E; [|discriminate].
  intros H. injection H as <- <- <-.
  apply isEditing_iff in E. repeat split. exact E.
Qed.

Lemma Offers_Wired (s : State) (e : Event) :
  Offers (render s) e -> Wired s e.
Proof.
  intros H. inversion H as
    [Hd | Hd | e0 Hf | row Hin Hd | row input save cancel e0 Hin Hb Hf
    | row input save cancel Hin Hb Hd | row input save cancel Hin Hb Hd
    | row Hin Hd | row Hin Hd]; subst; clear H.
  - exact Hd.
  - exact Hd.
  - inversion Hf as [text Hd Hfit | handler pressed Hd Hk]; subst.
    + split; [exact Hd | exact Hfit].
    + discriminate Hk.
  - apply rows_of_render in Hin. destruct Hin as [t [Hin ->]].
    split; [exact Hd | exists t; auto].
  - apply rows_of_render in Hin. destruct Hin as [t [Hin ->]].
    apply edit_row_of_render in Hb. destruct Hb as [Hed [-> _]].
    inversion Hf as [text Hd Hfit | handler pressed Hd Hk]; subst.
    + exists (doc_id t). split; [exact Hed | exists t; auto].
    + cbn in Hk. injection Hk as <-.
      split; [exact Hed | exists t; auto].
  - apply rows_of_render in Hin. destruct Hin as [t [Hin ->]].
    apply edit_row_of_render in Hb. destruct Hb as [Hed [_ [-> _]]].
    split; [exact Hed | exists t; auto].
  - apply rows_of_render in Hin. destruct Hin as [t [Hin ->]].
    apply edit_row_of_render in Hb. destruct Hb as [Hed [_ [_ ->]]].
    exists (doc_id t). split; [exact Hed | exists t; auto].
  - apply rows_of_render in Hin. destruct Hin as [t [Hin ->]].
    split; [exact Hd | exists t; auto].
  - apply rows_of_render in Hin. destruct Hin as [t [Hin ->]].
    split; [exact Hd | exists t; auto].
Qed.

Lemma edit_row_rendered (s : State) (t : Todo) :
  editingId s = Some (doc_id t) ->
  body (renderRow s t)
  = EditBox
      {| value := editText s; input_disabled := false; maxLength := None;
         onChange := EditChange;
         input_onKeyDown := Some (EditKeyDown (doc_id t)) |}
      {| label := js "Save"; button_disabled := false;
         onClick := SaveClick (doc_id t) |}
      {| label := js "Cancel"; button_disabled := false;
         onClick := CancelClick |}.
Proof.
  intros H. apply isEditing_iff in H. unfold renderRow. cbn [body].
  rewrite H. reflexivity.
Qed.

Lemma Wired_Offers (s : State) (e : Event) :
  Wired s e -> Offers (render s) e.
Proof.
  assert (Hrow : forall t, In t (todos s) ->
                           In (renderRow s t) (rowsOf (render s)))
    by (intros t Hin; apply rows_of_render; exists t; auto).
  destruct e as [| |v|id|v|id k|id| |id|id]; simpl.
  - contradiction.
  - intros H. apply (offers_submit_button (render s)). exact H.
  - intros [H Hfit]. apply offers_form_input.
    apply (fires_change (form_input (render s)) v); assumption.
  - intros [H [t [Hin <-]]].
    exact (@offers_checkbox (render s) (renderRow s t) (Hrow t Hin) H).
  - intros [id [Hed [t [Hin <-]]]].
    eapply (@offers_edit_input (render s) (renderRow s t));
      [exact (Hrow t Hin) | exact (edit_row_rendered s t Hed) |].
    match goal with
    | |- InputFires ?input _ => exact (@fires_change input v eq_refl I)
    end.
  - intros [Hed [t [Hin <-]]].
    eapply (@offers_edit_input (render s) (renderRow s t));
      [exact (Hrow t Hin) | exact (edit_row_rendered s t Hed) |].
    match goal with
    | |- InputFires ?input _ =>
        exact (@fires_key input (EditKeyDown (doc_id t)) k eq_refl eq_refl)
    end.
  - intros [Hed [t [Hin <-]]].
    exact (@offers_save (render s) (renderRow s t) _ _ _
             (Hrow t Hin) (edit_row_rendered s t Hed) eq_refl).
  - intros [id [Hed [t [Hin <-]]]].
    exact (@offers_cancel (render s) (renderRow s t) _ _ _
             (Hrow t Hin) (edit_row_rendered s t Hed) eq_refl).
  - intros [H [t [Hin <-]]].
    exact (@offers_delete (render s) (renderRow s t) (Hrow t Hin) H).
  - intros [H [t [Hin <-]]].
    exact (@offers_update (render s) (renderRow s t) (Hrow t Hin) H).
Qed.



Lemma Listed_find (s : State) (id : jsstring) :
  Listed s id ->
  exists t, find (has_id id) (todos s) = Some t
            /\ In t (todos s) /\ doc_id t = id.
Proof.
  intros [t [Hin Hid]].
  destruct (find_has_id_present _ _ Hin Hid) as [t0 Hfind].
  exists t0. split; [exact Hfind|].
  apply find_some in Hfind. destruct Hfind as [Hin0 Hid0].
  apply jsstring_eqb_eq in Hid0. split; assumption.
Qed.

(** X15. The guards of [toggleTodo] and [updateToDo] against an id that is
    not in the list never trigger from the screen: a checkbox the page
    offers always sends one update request for its id, and an Update button
    the page offers always opens the edit box on its id, with the text of a
    todo carrying that id as the draft. *)
Theorem X15_offered_controls_hit_the_list
  (env : Env) (id : jsstring) (s : State) :
  (Offers (render s) (CheckboxChange id) ->
   exists flag,
     snd (dispatch (CheckboxChange id) env s)
     = [call (updateDocument DATABASE_ID COLLECTION_ID id
                {| data_todo := None; data_userId := None;
                   data_completed := Some flag |})])
  /\ (Offers (render s) (UpdateClick id) ->
      let s' := fst (dispatch (UpdateClick id) env s) in
      editingId s' = Some id
      /\ exists t, In t (todos s) /\ doc_id t = id /\ editText s' = todo t).
Proof.
  split; intros H; apply Offers_Wired in H; destruct H as [_ H];
    apply Listed_find in H; destruct H as [t [Hfind [Hin Hid]]]; simpl.
  - exists (negb (completed t)). unfold toggleTodo. rewrite Hfind. reflexivity.
  - unfold updateToDo. rewrite Hfind. simpl.
    split; [reflexivity|]. exists t. repeat split; assumption.
Qed.

Lemma X15_offered_controls_hit_the_list_witness :
  snd (dispatch (CheckboxChange (js "b2")) Samples.online Samples.busy)
  <> []
  /\ editingId (fst (dispatch (UpdateClick (js "b2")) Samples.online
                       Samples.busy))
     = Some (js "b2").
Proof.
  assert (Hbread : Listed Samples.busy (js "b2")).
  { exists Samples.bread. split; [right; left; reflexivity | reflexivity]. }
  destruct (X15_offered_controls_hit_the_list Samples.online (js "b2")
              Samples.busy) as [Htoggle Hupdate].
  split.
  - destruct Htoggle as [flag Hsent].
    + apply Wired_Offers. split; [reflexivity | exact Hbread].
    + rewrite Hsent. discriminate.
  - apply Hupdate. apply Wired_Offers. split; [reflexivity | exact Hbread].
Defined.

(** *** What holds between two operations *)

Lemma onKeyDown_cases (id key : jsstring) (env : Env) (s : State) :
  onKeyDown id key env s = saveUpdate id env s
  \/ onKeyDown id key env s = cancelUpdate env s
  \/ onKeyDown id key env s = (s, []).
Proof.
  unfold onKeyDown.
  destruct (JsString.eqb key (js "Enter")) eqn:E1.
  - apply jsstring_eqb_eq in E1. subst key.
    change (JsString.eqb (js "Enter") (js "Escape")) with false.
    left. apply andThen_skip_r.
  - destruct (JsString.eqb key (js "Escape")); [right; left | right; right];
      reflexivity.
Qed.

Ltac known_error :=
  first [ left; reflexivity
        | right; exists ListLoad; reflexivity
        | right; exists Create; reflexivity
        | right; exists (Toggle []); reflexivity
        | right; exists (EditSave []); reflexivity
        | right; exists (Delete []); reflexivity
        | assumption ].

Ltac quiet_after :=
  unfold Quiet in *; simpl;
  repeat match goal with
         | |- context [databases ?env ?request] =>
             destruct (databases env request); simpl
         end;
  repeat split; try known_error; try assumption; try discriminate;
  try reflexivity; try (simpl; lia); auto.

Lemma fetchTodos_Quiet (env : Env) (s : State) :
  Quiet s -> Quiet (fst (fetchTodos env s)).
Proof. intros [Hl [He [Ht Hd]]]. unfold fetchTodos. quiet_after. Qed.

Lemma handleSubmit_Quiet (env : Env) (s : State) :
  Quiet s -> Quiet (fst (handleSubmit env s)).
Proof.
  intros [Hl [He [Ht Hd]]]. unfold handleSubmit.
  destruct (JsString.eqb _ _); quiet_after.
Qed.

Lemma toggleTodo_Quiet (env : Env) (id : jsstring) (s : State) :
  Quiet s -> Quiet (fst (toggleTodo id env s)).
Proof.
  intros [Hl [He [Ht Hd]]]. unfold toggleTodo.
  destruct (find _ _); quiet_after.
Qed.

Lemma deleteTodo_Quiet (env : Env) (id : jsstring) (s : State) :
  Quiet s -> Quiet (fst (deleteTodo id env s)).
Proof. intros [Hl [He [Ht Hd]]]. unfold deleteTodo. quiet_after. Qed.

Lemma saveUpdate_Quiet (env : Env) (id : jsstring) (s : State) :
  Quiet s -> Quiet (fst (saveUpdate id env s)).
Proof.
  intros [Hl [He [Ht Hd]]]. unfold saveUpdate.
  destruct (JsString.eqb _ _); quiet_after.
Qed.

Lemma cancelUpdate_Quiet (env : Env) (s : State) :
  Quiet s -> Quiet (fst (cancelUpdate env s)).
Proof. intros [Hl [He [Ht Hd]]]. unfold cancelUpdate. quiet_after. Qed.

Lemma updateToDo_Quiet (env : Env) (id : jsstring) (s : State) :
  Quiet s -> Quiet (fst (updateToDo id env s)).
Proof.
  intros [Hl [He [Ht Hd]]]. unfold updateToDo.
  destruct (find _ _); quiet_after.
Qed.

Lemma dispatch_Quiet (env : Env) (e : Event) (s : State) :
  Quiet s -> Wired s e -> Quiet (fst (dispatch e env s)).
Proof.
  intros Hq Hw. destruct e as [| |v|id|v|id k|id| |id|id]; cbn [dispatch].
  - contradiction.
  - apply handleSubmit_Quiet; exact Hq.
  - destruct Hq as [Hl [He [Ht Hd]]]. destruct Hw as [_ Hfit].
    unfold handleInputChange. quiet_after.
  - apply toggleTodo_Quiet; exact Hq.
  - destruct Hq as [Hl [He [Ht Hd]]]. destruct Hw as [id [Hed _]].
    unfold handleUpdateText. quiet_after. rewrite Hed. discriminate.
  - destruct (onKeyDown_cases id k env s) as [-> | [-> | ->]];
      [apply saveUpdate_Quiet | apply cancelUpdate_Quiet | ]; exact Hq.
  - apply saveUpdate_Quiet; exact Hq.
  - apply cancelUpdate_Quiet; exact Hq.
  - apply deleteTodo_Quiet; exact Hq.
  - apply updateToDo_Quiet; exact Hq.
Qed.

Lemma initialState_Quiet : Quiet initialState.
Proof.
  split; [reflexivity|]. split; [left; reflexivity|].
  split; [simpl; lia | reflexivity].
Qed.

Lemma Reachable_Quiet (s : State) : Reachable s -> Quiet s.
Proof.
  induction 1 as [env | env e s Hr IH Ho].
  - apply fetchTodos_Quiet. exact initialState_Quiet.
  - apply dispatch_Quiet; [exact IH | apply Offers_Wired; exact Ho].
Qed.




(** X17. Under the same conditions, the text of a create request is between
    1 and 100 code units long: the input of the form cannot hold more, and
    an empty text is never sent. *)
Theorem X17_created_text_is_bounded (env : Env) (s : State) :
  Reachable s ->
  snd (dispatch FormSubmit env s) = []
  \/ exists x,
       snd (dispatch FormSubmit env s)
       = [call (createDocument DATABASE_ID COLLECTION_ID (ID_unique env)
                  {| data_todo := Some x; data_userId := Some (js "1");
                     data_completed := Some false |})]
       /\ 1 <= List.length x <= 100.
Proof.
  intros Hr. apply Reachable_Quiet in Hr. destruct Hr as [_ [_ [Ht _]]].
  simpl. unfold handleSubmit.
  destruct (JsString.eqb (JsString.trim (todoText s)) (js "")) eqn:E;
    [left; reflexivity|].
  right. exists (JsString.trim (todoText s)). split; [reflexivity|].
  apply jsstring_eqb_neq in E. pose proof (trim_length (todoText s)) as Hlen.
  split; [|lia].
  destruct (JsString.trim (todoText s)); [elim E; reflexivity | simpl; lia].
Qed.

Lemma X17_created_text_is_bounded_witness :
  let s := fst (dispatch (InputChange (js "  Eggs ")) Samples.online
                  (fst (dispatch Mount Samples.online initialState))) in
  exists x,
    snd (dispatch FormSubmit Samples.online s)
    = [call (createDocument (js "todos") (js "todosdata") (js "c3")
               {| data_todo := Some x; data_userId := Some (js "1");
                  data_completed := Some false |})]
    /\ 1 <= List.length x <= 100.
Proof.
  intros s.
  assert (Hr : Reachable s).
  { apply reach_event; [apply reach_mount|].
    apply Wired_Offers. split; [reflexivity | simpl; lia]. }
  destruct (X17_created_text_is_bounded Samples.online Hr) as [Hnone | Hsome].
  - discriminate Hnone.
  - exact Hsome.
Defined.

(** *** The edit box *)









(** *** While a request is on its way *)

(** A started handler that nothing disturbs ends as the handler run in one
    go: same state, same request. *)
Lemma settle_undisturbed (op : Operation) (env : Env) (s : State) :
  settle (databases env) (fun pending => pending)
    (start op (ID_unique env) s)
  = run op env s.
Proof.
  destruct op as [| |id|id|id]; cbn [start run].
  - reflexivity.
  - unfold handleSubmit_async, handleSubmit.
    destruct (JsString.eqb _ _); reflexivity.
  - unfold toggleTodo_async, toggleTodo.
    destruct (find _ _); reflexivity.
  - unfold saveUpdate_async, saveUpdate.
    destruct (JsString.eqb _ _); reflexivity.
  - reflexivity.
Qed.




(** X21. What the user does in the edit box while a save is on its way
    does not reach the save.  Text typed meanwhile is not what gets
    stored, and is wiped together with the edit mode once the store fulfils
    the request; it survives only if the store rejects it.  Cancelling
    meanwhile does not call the save off: once fulfilled, the text of the
    todo is replaced all the same. *)
Theorem X21_acting_while_a_save_is_pending
  (env : Env) (id typed : jsstring) (s : State) :
  JsString.trim (editText s) <> [] ->
  let request :=
    updateDocument DATABASE_ID COLLECTION_ID id
      {| data_todo := Some (JsString.trim (editText s));
         data_userId := None; data_completed := None |} in
  let typing :=
    settle (databases env)
      (fun pending => fst (dispatch (EditChange typed) env pending))
      (saveUpdate_async id s) in
  let cancelling :=
    settle (databases env)
      (fun pending => fst (dispatch CancelClick env pending))
      (saveUpdate_async id s) in
  snd typing = [call request]
  /\ snd cancelling = [call request]
  /\ match databases env request with
     | Fulfilled _ =>
         Forall2 (Retexted id (JsString.trim (editText s)))
           (todos s) (todos (fst typing))
         /\ editText (fst typing) = js ""
         /\ editingId (fst typing) = None
         /\ Forall2 (Retexted id (JsString.trim (editText s)))
              (todos s) (todos (fst cancelling))
     | Rejected _ =>
         editText (fst typing) = typed
         /\ editingId (fst typing) = editingId s
         /\ todos (fst typing) = todos s
         /\ editText (fst cancelling) = js ""
         /\ editingId (fst cancelling) = None
         /\ error (fst cancelling) = Some (js "Failed to update todo text")
     end.
Proof.
  intros Hne. cbv zeta. unfold saveUpdate_async.
  rewrite (trim_nonempty_test _ Hne). cbn [settle fst snd].
  split; [reflexivity|]. split; [reflexivity|].
  case_answer response err E; simpl.
  - repeat split; apply map_with_todo_Retexted.
  - repeat split.
Qed.

Lemma X21_acting_while_a_save_is_pending_witness :
  let typing :=
    settle Samples.store_up
      (fun pending =>
         fst (dispatch (EditChange (js "Buy soy milk")) Samples.online
                pending))
      (saveUpdate_async (js "a1") Samples.busy) in
  map todo (todos (fst typing)) = [js "Buy oat milk"; js "Bread"]
  /\ editText (fst typing) = js ""
  /\ editingId (fst typing) = None.
Proof.
  intros typing. split; [reflexivity|].
  assert (Hne : JsString.trim (editText Samples.busy) <> [])
    by (vm_compute; discriminate).
  destruct (@X21_acting_while_a_save_is_pending Samples.online (js "a1")
              (js "Buy soy milk") Samples.busy Hne) as [_ [_ Hstate]].
  cbn [databases Samples.online Samples.store_up] in Hstate.
  destruct Hstate as [_ [Htext [Hid _]]].
  split; [exact Htext | exact Hid].
Defined.

(** *** Requests over a run of events *)

Lemma dispatch_sends_at_most_one (e : Event) (env : Env) (s : State) :
  List.length (snd (dispatch e env s))
  <= if mayAsk e then 1 else 0.
Proof.
  destruct e as [| |v|id|v|id k|id| |id|id]; cbn [dispatch mayAsk];
    try (simpl; lia).
  - unfold handleSubmit. destruct (JsString.eqb _ _); simpl; lia.
  - unfold toggleTodo. destruct (find _ _); simpl; lia.
  - destruct (onKeyDown_cases id k env s) as [-> | [-> | ->]];
      try (simpl; lia).
    unfold saveUpdate. destruct (JsString.eqb _ _); simpl; lia.
  - unfold saveUpdate. destruct (JsString.eqb _ _); simpl; lia.
  - unfold updateToDo. destruct (find _ _); simpl; lia.
Qed.

(** X22. No event makes the page send more than one request, and typing,
    cancelling and asking to edit send none: over any run of events, with
    any answers of the store, the page sends at most as many requests as
    the run has mounts, submits, checkbox changes, edit-box keys, Save
    clicks and Delete clicks. *)
Theorem X22_requests_of_a_run (script : list (Env * Event)) (s : State) :
  List.length (snd (play script s))
  <= List.length (filter (fun step => mayAsk (snd step)) script).
Proof.
  revert s. induction script as [|[env e] script IH]; intros s;
    [simpl; lia|].
  cbn [play]. pose proof (dispatch_sends_at_most_one e env s) as H1.
  destruct (dispatch e env s) as [s1 sent1]. specialize (IH s1).
  destruct (play script s1) as [s2 sent2]. cbn [snd] in *.
  rewrite length_app. cbn [filter snd].
  destruct (mayAsk e); simpl; lia.
Qed.
